(** * BiolockEmbed: a shallow embedding of [src/lib/biolock-embed.js]

    The development follows the class [BiolockEmbed] method by method:
    the constructor, [_buildIframeUrl], [_handleMessage], [_resizeIframe],
    the two outbound senders and [destroy].

    Modelling conventions.
    - JavaScript values are the inductive [JsValue].  Numbers are the
      integral ones (a safe integer [n], or [NaN]); strings stand for their
      UTF-8 byte sequence; a plain object is the list of its own enumerable
      properties in [Object.keys] order; functions and DOM elements are
      handles.  Values outside this universe (BigInt, Symbol, Date, RegExp,
      objects with their own [toString]) are not modelled.
    - Everything the browser decides is a field of the record [Host]:
      [window.location.origin], [document.querySelector], [JSON.parse],
      [isNaN] on strings, the window attached to an inserted frame, which
      elements are [HTMLElement]s, the value the style declaration keeps
      for a height text, and what each user function does when called.
    - Effects are explicit: a computation maps a [World] (the DOM tree, the
      frame properties and the window's message listeners) to a [Run]: the
      trace of observable events (callback invocations, posted messages,
      console output), the final world, and a normal or abrupt completion. *)

From Stdlib Require Import String Ascii List ZArith Bool Lia PeanoNat DecimalString.
Import ListNotations.
Open Scope string_scope.
Open Scope list_scope.

Set Implicit Arguments.
Set Warnings "-register-all".

(* ================================================================== *)
(** ** JavaScript values *)
(* ================================================================== *)

Definition NodeId := nat.
Definition WindowId := nat.
Definition FnId := nat.
Definition ListenerId := nat.

Inductive JsValue : Type :=
| JUndefined
| JNull
| JBool (b : bool)
| JNum (n : Z)
| JNaN
| JStr (s : string)
| JObj (props : list (string * JsValue))
| JFun (f : FnId)
| JElem (e : NodeId).

(** What a [throw] carries. *)
Inductive Exn : Type :=
| ExnError (message : string)        (* new Error(message) *)
| ExnTypeError (message : string)    (* raised by the engine *)
| ExnSyntaxError (message : string)  (* JSON.parse, querySelector *)
| ExnDataCloneError (message : string) (* postMessage on a value that cannot be cloned *)
| ExnValue (v : JsValue).            (* anything thrown by user code *)

(** ToBoolean. *)
Definition truthy (v : JsValue) : bool :=
  match v with
  | JUndefined | JNull | JNaN => false
  | JBool b => b
  | JNum n => negb (n =? 0)%Z
  | JStr s => negb (s =? "")
  | JObj _ | JFun _ | JElem _ => true
  end.

(** [a || b]. *)
Definition js_or (a b : JsValue) : JsValue := if truthy a then a else b.

(** [v === "s"] for a string literal [s]. *)
Definition is_str (s : string) (v : JsValue) : bool :=
  match v with
  | JStr t => t =? s
  | _ => false
  end.

Fixpoint lookup (k : string) (props : list (string * JsValue)) : option JsValue :=
  match props with
  | [] => None
  | (k', v) :: rest => if k' =? k then Some v else lookup k rest
  end.

(** [v.k] for the property names this program reads ([source],
    [messageType], [height], [page], [errorCode], ...): none of them exists
    on a primitive's prototype, so a primitive yields [undefined];
    [null] and [undefined] raise. *)
Definition get (v : JsValue) (k : string) : JsValue + Exn :=
  match v with
  | JUndefined =>
      inr (ExnTypeError ("Cannot read properties of undefined (reading '" ++ k ++ "')"))
  | JNull =>
      inr (ExnTypeError ("Cannot read properties of null (reading '" ++ k ++ "')"))
  | JObj props =>
      inl (match lookup k props with Some x => x | None => JUndefined end)
  | _ => inl JUndefined
  end.

(** Property read on a value already known to be an object. *)
Definition field (props : list (string * JsValue)) (k : string) : JsValue :=
  match lookup k props with Some x => x | None => JUndefined end.

(* ================================================================== *)
(** ** The host environment *)
(* ================================================================== *)

Inductive CbOutcome : Type :=
| CbReturn
| CbThrow (e : Exn).

Inductive QueryResult : Type :=
| QFound (e : NodeId)
| QNull
| QInvalid (message : string).   (* querySelector raises on a malformed selector *)

Record Host : Type := mkHost {
  location_origin : string;                      (* window.location.origin *)
  querySelector : string -> QueryResult;         (* document.querySelector *)
  JSON_parse : string -> JsValue + string;       (* inr: SyntaxError message *)
  isNaN_string : string -> bool;                 (* isNaN(s) for a string s *)
  fn_to_string : FnId -> string;                 (* String(f) *)
  elem_to_string : NodeId -> string;             (* String(element) *)
  browsing_context : NodeId -> option WindowId;  (* window of a frame once in the tree *)
  instanceof_HTMLElement : NodeId -> bool;       (* element instanceof HTMLElement *)
  css_height : string -> option string;          (* a height declaration's value for a text; None: rejected *)
  call : FnId -> JsValue -> CbOutcome            (* behaviour of user functions *)
}.

(** ToString. *)
Definition ToString (h : Host) (v : JsValue) : string :=
  match v with
  | JUndefined => "undefined"
  | JNull => "null"
  | JBool true => "true"
  | JBool false => "false"
  | JNum n => NilZero.string_of_int (Z.to_int n)
  | JNaN => "NaN"
  | JStr s => s
  | JObj _ => "[object Object]"
  | JFun f => fn_to_string h f
  | JElem e => elem_to_string h e
  end.

(** [isNaN(v)]: ToNumber, then the NaN test. *)
Definition isNaN (h : Host) (v : JsValue) : bool :=
  match v with
  | JUndefined | JNaN => true
  | JNull | JBool _ | JNum _ => false
  | JStr s => isNaN_string h s
  | JObj _ | JFun _ | JElem _ => true
  end.

(* ================================================================== *)
(** ** Strings: the two [replace] calls and form-urlencoding *)
(* ================================================================== *)

(** [s.replace(/^\//, "")]. *)
Definition strip_leading_slash (s : string) : string :=
  match s with
  | String "/" rest => rest
  | _ => s
  end.

(** [s.replace(/\/$/, "")]. *)
Fixpoint strip_trailing_slash (s : string) : string :=
  match s with
  | EmptyString => EmptyString
  | String c EmptyString => if (c =? "/")%char then EmptyString else s
  | String c rest => String c (strip_trailing_slash rest)
  end.

Definition hex_digit (n : nat) : ascii :=
  match n with
  | 0 => "0" | 1 => "1" | 2 => "2" | 3 => "3" | 4 => "4" | 5 => "5"
  | 6 => "6" | 7 => "7" | 8 => "8" | 9 => "9" | 10 => "A" | 11 => "B"
  | 12 => "C" | 13 => "D" | 14 => "E" | _ => "F"
  end%char.

(** Bytes the application/x-www-form-urlencoded serializer leaves alone:
    ASCII alphanumerics and [*], [-], [.], [_]. *)
Definition form_safe (c : ascii) : bool :=
  let n := nat_of_ascii c in
  (((48 <=? n) && (n <=? 57)) || ((65 <=? n) && (n <=? 90)) ||
   ((97 <=? n) && (n <=? 122)) ||
   (n =? 42) || (n =? 45) || (n =? 46) || (n =? 95))%nat.

Definition form_encode_byte (c : ascii) : string :=
  if (c =? " ")%char then "+"
  else if form_safe c then String c EmptyString
  else let n := nat_of_ascii c in
       String "%" (String (hex_digit (n / 16)) (String (hex_digit (n mod 16)) EmptyString)).

Fixpoint form_encode (s : string) : string :=
  match s with
  | EmptyString => EmptyString
  | String c rest => form_encode_byte c ++ form_encode rest
  end.

(** [URLSearchParams]: an ordered list of name/value pairs. *)
Definition Params := list (string * string).

(** [params.set(name, value)]: overwrite the first pair called [name] and
    drop the others; append when there is none. *)
Fixpoint params_set (name value : string) (ps : Params) : Params :=
  match ps with
  | [] => [(name, value)]
  | (k, v) :: rest =>
      if k =? name
      then (k, value) :: filter (fun kv => negb (fst kv =? name)) rest
      else (k, v) :: params_set name value rest
  end.

(** [params.toString()]. *)
Fixpoint params_toString (ps : Params) : string :=
  match ps with
  | [] => ""
  | [(k, v)] => form_encode k ++ "=" ++ form_encode v
  | (k, v) :: rest => form_encode k ++ "=" ++ form_encode v ++ "&" ++ params_toString rest
  end.

(* ================================================================== *)
(** ** Observable events, worlds and the effect monad *)
(* ================================================================== *)

(** The slots of [this.callbacks]. *)
Inductive Slot : Type :=
| pageLoaded | createdDocument | createdBiolink | biolinkNotCreated
| documentDelivery | error | documentFilesAutoDownloaded
| certifiedSenderPhoto | documentAttributes | jsonToParent | documentNotFound.

Inductive LogItem : Type :=
| LStr (s : string)
| LExn (e : Exn).

Inductive Event : Type :=
| Call (slot : Slot) (f : FnId) (arg : JsValue)            (* this.callbacks.slot(arg) *)
| PostMessage (target : WindowId) (message : JsValue) (targetOrigin : string)
| ConsoleError (items : list LogItem)
| ConsoleLog (items : list LogItem).

(** The properties of an [<iframe>] element the class touches.
    [cssText] is what the constructor assigns to [iframe.style];
    [display] and [height] are the later assignments to those two
    properties ([None]: never assigned). *)
Record Iframe : Type := mkIframe {
  src : string;
  cssText : string;
  allow : string;
  attributes : list (string * string);
  display : option string;
  height : option string
}.

Definition blank_iframe : Iframe := mkIframe "" "" "" [] None None.

Record World : Type := mkWorld {
  next_id : nat;                           (* next fresh node / listener handle *)
  parentNode : NodeId -> option NodeId;    (* the DOM tree *)
  frames : NodeId -> Iframe;               (* properties of frame elements *)
  listeners : list ListenerId              (* 'message' listeners of window *)
}.

Inductive Completion (A : Type) : Type :=
| Normal (a : A)
| Throw (e : Exn).
Arguments Throw {A} e.

Record Run (A : Type) : Type := mkRun {
  trace : list Event;
  world : World;
  completion : Completion A
}.

Definition Eff (A : Type) : Type := World -> Run A.

Definition ret {A} (a : A) : Eff A := fun w => mkRun [] w (Normal a).

Definition throw {A} (e : Exn) : Eff A := fun w => mkRun [] w (Throw e).

Definition bind {A B} (m : Eff A) (k : A -> Eff B) : Eff B :=
  fun w =>
    let r := m w in
    match completion r with
    | Normal a =>
        let r' := k a (world r) in
        mkRun (trace r ++ trace r') (world r') (completion r')
    | Throw e => mkRun (trace r) (world r) (Throw e)
    end.

(** [try { m } catch (err) { handler(err) }]. *)
Definition try_catch {A} (m : Eff A) (handler : Exn -> Eff A) : Eff A :=
  fun w =>
    let r := m w in
    match completion r with
    | Normal a => r
    | Throw e =>
        let r' := handler e (world r) in
        mkRun (trace r ++ trace r') (world r') (completion r')
    end.

(** A run with earlier events put in front of its trace. *)
Definition prefixed {A} (t : list Event) (r : Run A) : Run A :=
  mkRun (t ++ trace r) (world r) (completion r).

Definition emit (e : Event) : Eff unit := fun w => mkRun [e] w (Normal tt).

Definition modify (f : World -> World) : Eff unit := fun w => mkRun [] (f w) (Normal tt).

Definition read {A} (f : World -> A) : Eff A := fun w => mkRun [] w (Normal (f w)).

Definition lift {A} (r : A + Exn) : Eff A :=
  match r with
  | inl a => ret a
  | inr e => throw e
  end.

Declare Scope eff_scope.
Delimit Scope eff_scope with eff.
Notation "x <- m ;; k" := (bind m (fun x => k))
  (at level 61, m at next level, right associativity) : eff_scope.
Notation "m ;; k" := (bind m (fun _ => k))
  (at level 61, right associativity) : eff_scope.
Open Scope eff_scope.

Definition console_error (items : list LogItem) : Eff unit := emit (ConsoleError items).
Definition console_log (items : list LogItem) : Eff unit := emit (ConsoleLog items).

(* ================================================================== *)
(** ** DOM and window primitives *)
(* ================================================================== *)

Definition update {A} (f : nat -> A) (k : nat) (a : A) : nat -> A :=
  fun n => if Nat.eqb n k then a else f n.

(** [document.createElement('iframe')]: a fresh, detached frame element. *)
Definition createElement_iframe : Eff NodeId :=
  fun w =>
    let f := next_id w in
    mkRun [] (mkWorld (S f) (update (parentNode w) f None)
                      (update (frames w) f blank_iframe) (listeners w))
          (Normal f).

Definition set_frame (f : NodeId) (g : Iframe -> Iframe) : Eff unit :=
  modify (fun w => mkWorld (next_id w) (parentNode w)
                           (update (frames w) f (g (frames w f))) (listeners w)).

(** [e.innerHTML = ""]: every child of [e] is detached. *)
Definition clear_children (e : NodeId) : Eff unit :=
  modify (fun w =>
    mkWorld (next_id w)
            (fun n => match parentNode w n with
                      | Some p => if Nat.eqb p e then None else Some p
                      | None => None
                      end)
            (frames w) (listeners w)).

(** [e.appendChild(f)]. *)
Definition appendChild (e f : NodeId) : Eff unit :=
  modify (fun w => mkWorld (next_id w) (update (parentNode w) f (Some e))
                           (frames w) (listeners w)).

(** [p.removeChild(f)] for the parent [p] of [f]. *)
Definition removeChild (f : NodeId) : Eff unit :=
  modify (fun w => mkWorld (next_id w) (update (parentNode w) f None)
                           (frames w) (listeners w)).

(** [this._handleMessage.bind(this)] followed by
    [window.addEventListener('message', bound, false)]: the bound function
    is a new object, identified by a fresh handle. *)
Definition addEventListener_bound : Eff ListenerId :=
  fun w =>
    let l := next_id w in
    mkRun [] (mkWorld (S l) (parentNode w) (frames w) (listeners w ++ [l]))
          (Normal l).

(** [window.removeEventListener('message', l, false)]. *)
Definition removeEventListener (l : ListenerId) : Eff unit :=
  modify (fun w => mkWorld (next_id w) (parentNode w) (frames w)
                           (filter (fun l' => negb (Nat.eqb l' l)) (listeners w))).

(** [frame.contentWindow]: a frame has a window only while it is in the
    tree. *)
Definition contentWindow (h : Host) (f : NodeId) (w : World) : option WindowId :=
  match parentNode w f with
  | Some _ => browsing_context h f
  | None => None
  end.

(** What the structured clone of [postMessage] accepts: primitives and
    plain objects of such; a function or a DOM node anywhere in the value
    makes it fail. *)
Fixpoint cloneable (v : JsValue) : bool :=
  match v with
  | JFun _ | JElem _ => false
  | JObj props =>
      (fix all (ps : list (string * JsValue)) : bool :=
         match ps with
         | [] => true
         | (_, x) :: rest => cloneable x && all rest
         end) props
  | _ => true
  end.

(** [win.postMessage(message, '*')]: the message is cloned first, and a
    value that cannot be cloned raises [DataCloneError] before anything
    is posted. *)
Definition postMessage (win : WindowId) (message : JsValue) : Eff unit :=
  if cloneable message then emit (PostMessage win message "*")
  else throw (ExnDataCloneError "The object could not be cloned.").

(** [frame.style.height = value]: the style declaration parses the text;
    a text that is a height is kept in the declaration's own serialised
    form, and an invalid text is discarded and the earlier height stays. *)
Definition set_style_height (h : Host) (f : NodeId) (value : string) : Eff unit :=
  match css_height h value with
  | Some kept =>
      set_frame f (fun fr => mkIframe (src fr) (cssText fr) (allow fr) (attributes fr)
                                      (display fr) (Some kept))
  | None => ret tt
  end.

(* ================================================================== *)
(** ** The controller object *)
(* ================================================================== *)

Definition Config := list (string * JsValue).
Definition CallbackTable := Slot -> JsValue.

(** The instance fields; [None] is [null]. [bound_handleMessage] is the
    function stored in [this._handleMessage] by the constructor. *)
Record Controller : Type := mkController {
  containerElement : option NodeId;
  options : option Config;
  callbacks : option CallbackTable;
  iframe : option NodeId;
  bound_handleMessage : ListenerId
}.

Definition dquote : string := String (ascii_of_nat 34) EmptyString.

Definition allowed_origins : list string :=
  ["http://127.0.0.1:3000"; "http://localhost:3000"; "http://localhost:8000";
   "https://dev.biolock.ai"; "https://biolock.ai"].

Definition allowedPages : list string := ["upload"; "download"; "create-biolink"].

(** [list.includes(v)] for a list of string literals. *)
Definition includes (l : list string) (v : JsValue) : bool :=
  existsb (fun s => is_str s v) l.

Definition unknown_page_message (h : Host) (path : JsValue) : string :=
  "BiolockEmbed: Unknown page " ++ dquote ++ ToString h path ++ dquote ++
  " specified. Defaulting to " ++ dquote ++ "/" ++ dquote ++ ".".

(** The loop over [Object.keys(this.options)] filling the
    [URLSearchParams]. *)
Definition query_params (h : Host) (opts : Config) : Params :=
  fold_left
    (fun (params : Params) (kv : string * JsValue) =>
       let key := fst kv in
       if prefix "on" key then params
       else params_set key (ToString h (field opts key)) params)
    opts
    (params_set "display_mode" "reduced" []).

(** [path.replace(/^\//, "")]. *)
Definition replace_leading_slash (path : JsValue) : string + Exn :=
  match path with
  | JStr s => inl (strip_leading_slash s)
  | _ => inr (ExnTypeError "path.replace is not a function")
  end.

Definition _buildIframeUrl (h : Host) (opts : Config) : Eff string :=
  let baseUrl := location_origin h in
  let baseUrl := if includes allowed_origins (JStr baseUrl) then baseUrl
                 else "https://biolock.ai" in
  let path := field opts "page" in
  path <- (if includes allowedPages path then ret path
           else console_error [LStr (unknown_page_message h path)];;
                ret (JStr "/"));;
  let path := if is_str "download" (field opts "page") then JStr "d" else path in
  let path := if is_str "createBiolink" (field opts "page")
              then JStr "create-biolink" else path in
  segment <- lift (replace_leading_slash path);;
  let url := (strip_trailing_slash baseUrl ++ "/" ++ segment)%string in
  let queryString := params_toString (query_params h opts) in
  let url := if negb (queryString =? "") then (url ++ "?" ++ queryString)%string else url in
  let url := if truthy (field opts "document_key")
             then (url ++ ToString h (field opts "document_key"))%string else url in
  ret url.

(** [this.callbacks = { pageLoaded: options.onPageLoaded || null, ... }]. *)
Definition make_callbacks (opts : Config) : CallbackTable :=
  fun slot =>
    match slot with
    | pageLoaded => js_or (field opts "onPageLoaded") JNull
    | createdDocument => js_or (field opts "onCreatedDocument") JNull
    | createdBiolink => js_or (field opts "onCreatedBiolink") JNull
    | biolinkNotCreated => js_or (field opts "onBiolinkNotCreated") JNull
    | documentDelivery => js_or (field opts "onDocumentDelivery") JNull
    | error => js_or (field opts "onError") JNull
    | documentFilesAutoDownloaded => js_or (field opts "onDocumentFilesAutoDownloaded") JNull
    | certifiedSenderPhoto => js_or (field opts "onCertifiedSenderPhoto") JNull
    | documentAttributes => js_or (field opts "onDocumentAttributes") JNull
    | jsonToParent => js_or (field opts "onJsonToParent") JNull
    | documentNotFound => js_or (field opts "onDocumentNotFound") JNull
    end.

Definition required_message : string :=
  "BiolockEmbed: 'container' and 'page' options are required.".

Definition not_found_message : string :=
  "BiolockEmbed: Container element not found.".

(** The container lookup of the constructor: [Some e] when
    [this.containerElement] ends up an element, [None] when it stays
    undefined or null.  A selector string is looked up in the document;
    any other value counts only if it is an [HTMLElement]. *)
Definition resolve_container (h : Host) (container : JsValue) : Eff (option NodeId) :=
  match container with
  | JStr selector =>
      match querySelector h selector with
      | QFound e => ret (Some e)
      | QNull => ret None
      | QInvalid m => throw (ExnSyntaxError m)
      end
  | JElem e => if instanceof_HTMLElement h e then ret (Some e) else ret None
  | _ => ret None
  end.

(** [new BiolockEmbed(options)]. Only an object can carry a truthy
    [container] and [page]; every other argument (undefined, null, a
    primitive, a handle) fails the first test. *)
Definition constructor (h : Host) (arg : JsValue) : Eff Controller :=
  match arg with
  | JObj opts =>
      if negb (truthy (field opts "container")) || negb (truthy (field opts "page"))
      then throw (ExnError required_message)
      else
        resolved <- resolve_container h (field opts "container");;
        match resolved with
        | None => throw (ExnError not_found_message)
        | Some anchor =>
            let table := make_callbacks opts in
            f <- createElement_iframe;;
            url <- _buildIframeUrl h opts;;
            set_frame f (fun _ =>
              mkIframe url
                       (ToString h (js_or (field opts "style") (JStr "")))
                       "camera"
                       [("allowfullscreen", "true"); ("scrolling", "no")]
                       (Some "none") None);;
            clear_children anchor;;
            appendChild anchor f;;
            l <- addEventListener_bound;;
            ret (mkController (Some anchor) (Some opts) (Some table) (Some f) l)
        end
  | _ => throw (ExnError required_message)
  end.

(** [this.iframe.onload]. *)
Definition iframe_onload (f : NodeId) : Eff unit :=
  set_frame f (fun fr => mkIframe (src fr) (cssText fr) (allow fr) (attributes fr)
                                  (Some "block") (height fr)).

(* ================================================================== *)
(** ** Inbound messages *)
(* ================================================================== *)

(** A [MessageEvent]: [source] is [None] for null. *)
Record MessageEvent : Type := mkEvent {
  source : option WindowId;
  data : JsValue
}.

Definition null_read (what prop : string) : Exn :=
  ExnTypeError ("Cannot read properties of null (reading '" ++ prop ++ "') of " ++ what).

(** [this.iframe], which must not be null where it is dereferenced. *)
Definition the_iframe (this : Controller) (prop : string) : Eff NodeId :=
  match iframe this with
  | Some f => ret f
  | None => throw (null_read "this.iframe" prop)
  end.

(** [this.callbacks.slot]. *)
Definition callback (this : Controller) (slot : Slot) : Eff JsValue :=
  match callbacks this with
  | Some table => ret (table slot)
  | None => throw (null_read "this.callbacks" "callback")
  end.

(** The call [this.callbacks.slot(arg)] itself. *)
Definition invoke (h : Host) (slot : Slot) (cb arg : JsValue) : Eff unit :=
  match cb with
  | JFun f =>
      emit (Call slot f arg);;
      match call h f arg with
      | CbReturn => ret tt
      | CbThrow e => throw e
      end
  | _ => throw (ExnTypeError "this.callbacks[...] is not a function")
  end.

(** [try { body } catch (err) { console.error(err); }]. *)
Definition logged (body : Eff unit) : Eff unit :=
  try_catch body (fun err => console_error [LExn err]).

(** [if (this.callbacks.slot) { try { this.callbacks.slot(data.prop); }
    catch (err) { console.error(err); } }]. *)
Definition notify (h : Host) (this : Controller) (slot : Slot)
           (payload : JsValue) (prop : string) : Eff unit :=
  cb <- callback this slot;;
  if truthy cb
  then logged (arg <- lift (get payload prop);; invoke h slot cb arg)
  else ret tt.

(** [_resizeIframe(newHeight)]. *)
Definition _resizeIframe (h : Host) (this : Controller) (newHeight : JsValue) : Eff unit :=
  if negb (truthy newHeight) || isNaN h newHeight then ret tt
  else
    f <- the_iframe this "style";;
    set_style_height h f (ToString h newHeight ++ "px")%string.

Definition originProof : JsValue :=
  JObj [("source", JStr "parent"); ("messageType", JStr "originProof")].

(** The [case 'error':] arm of the switch. *)
Definition handle_error (h : Host) (this : Controller) (payload : JsValue) : Eff unit :=
  errorCode <- lift (get payload "errorCode");;
  if truthy errorCode && is_str "documentNotFound" errorCode then
    dedicated <- callback this documentNotFound;;
    if truthy dedicated then
      logged (m <- lift (get payload "errorMessage");;
              invoke h documentNotFound dedicated m)
    else
      generic <- callback this error;;
      if truthy generic then
        logged (m <- lift (get payload "errorMessage");; invoke h error generic m)
      else ret tt
  else if truthy errorCode && is_str "biolinkNotCreated" errorCode then
    dedicated <- callback this biolinkNotCreated;;
    if truthy dedicated then
      logged (m <- lift (get payload "errorMessage");;
              invoke h biolinkNotCreated dedicated m)
    else
      generic <- callback this error;;
      if truthy generic then logged (invoke h error generic payload)
      else ret tt
  else
    generic <- callback this error;;
    if truthy generic then
      e <- lift (get payload "error");;
      m <- (if truthy e then ret e else lift (get payload "message"));;
      let errorInfo := if truthy m then m else payload in
      logged (invoke h error generic errorInfo)
    else ret tt.

(** The [switch (data.messageType)]. *)
Definition dispatch (h : Host) (this : Controller) (payload : JsValue) : Eff unit :=
  messageType <- lift (get payload "messageType");;
  if is_str "contentSize" messageType then
    newHeight <- lift (get payload "height");;
    _resizeIframe h this newHeight
  else if is_str "pageLoaded" messageType then
    f <- the_iframe this "contentWindow";;
    win <- read (contentWindow h f);;
    match win with
    | Some target => postMessage target originProof
    | None => throw (null_read "this.iframe.contentWindow" "postMessage")
    end;;
    notify h this pageLoaded payload "page"
  else if is_str "documentAttributes" messageType then
    cb <- callback this documentAttributes;;
    if truthy cb then
      logged (at_ <- lift (get payload "firstDownloadedAt");;
              invoke h documentAttributes cb (JObj [("firstDownloadedAt", at_)]))
    else ret tt
  else if is_str "jsonToParent" messageType then
    notify h this jsonToParent payload "json"
  else if is_str "documentDelivery" messageType then
    notify h this documentDelivery payload "delivered"
  else if is_str "documentFilesAutoDownloaded" messageType then
    notify h this documentFilesAutoDownloaded payload "downloaded"
  else if is_str "certifiedSenderPhoto" messageType then
    notify h this certifiedSenderPhoto payload "photo"
  else if is_str "createdDocument" messageType then
    cb <- callback this createdDocument;;
    if truthy cb then
      k <- lift (get payload "documentKey");;
      u <- lift (get payload "documentUrl");;
      logged (invoke h createdDocument cb (JObj [("documentKey", k); ("documentUrl", u)]))
    else ret tt
  else if is_str "createdBiolink" messageType then
    cb <- callback this createdBiolink;;
    if truthy cb then
      k <- lift (get payload "biolinkKey");;
      u <- lift (get payload "biolinkUrl");;
      logged (invoke h createdBiolink cb (JObj [("biolinkKey", k); ("biolinkUrl", u)]))
    else ret tt
  else if is_str "error" messageType then
    handle_error h this payload
  else
    console_log [LStr ("message from Biolock not handled" ++ ToString h payload)].

Definition option_nat_eqb (a b : option nat) : bool :=
  match a, b with
  | Some x, Some y => Nat.eqb x y
  | None, None => true
  | _, _ => false
  end.

(** The string branch: [JSON.parse] inside a try whose catch only logs, so
    on failure [data] keeps the string. *)
Definition parse_if_string (h : Host) (payload : JsValue) : Eff JsValue :=
  match payload with
  | JStr text =>
      match JSON_parse h text with
      | inl parsed => ret parsed
      | inr m =>
          console_error
            [LStr "BiolockEmbed: Failed to parse message data (must be in JSON format):";
             LExn (ExnSyntaxError m)];;
          ret payload
      end
  | _ => ret payload
  end.

Definition _handleMessage (h : Host) (this : Controller) (event : MessageEvent) : Eff unit :=
  match source event with
  | None => ret tt                                (* !event.source *)
  | Some from =>
      f <- the_iframe this "contentWindow";;
      win <- read (contentWindow h f);;
      if negb (option_nat_eqb (Some from) win) then ret tt
      else
        tag <- lift (get (data event) "source");;
        if negb (is_str "biolock" tag) then ret tt
        else
          payload <- parse_if_string h (data event);;
          dispatch h this payload
  end.

(* ================================================================== *)
(** ** Outbound senders and teardown *)
(* ================================================================== *)

Definition send (h : Host) (this : Controller) (message : JsValue) : Eff unit :=
  match iframe this with
  | Some f =>
      win <- read (contentWindow h f);;
      match win with
      | Some target => postMessage target message
      | None => ret tt
      end
  | None => ret tt
  end.

Definition addJsonToDocument (h : Host) (this : Controller) (json : JsValue) : Eff unit :=
  send h this (JObj [("source", JStr "parent");
                     ("messageType", JStr "addJsonToDocument");
                     ("json", json)]).

Definition setSenderPhotosFiles (h : Host) (this : Controller) (photosFiles : JsValue) : Eff unit :=
  send h this (JObj [("source", JStr "parent");
                     ("messageType", JStr "setSenderPhotosFiles");
                     ("photosFiles", photosFiles)]).

(** [destroy()], returning the instance after the four fields are nulled. *)
Definition destroy (this : Controller) : Eff Controller :=
  removeEventListener (bound_handleMessage this);;
  match iframe this with
  | Some f =>
      parent <- read (fun w => parentNode w f);;
      match parent with
      | Some _ => removeChild f
      | None => ret tt
      end
  | None => ret tt
  end;;
  ret (mkController None None None None (bound_handleMessage this)).

(** The window's event loop delivering one message event to this
    instance: its handler runs exactly when it is still registered. *)
Definition deliver (h : Host) (this : Controller) (event : MessageEvent) : Eff unit :=
  fun w =>
    if existsb (Nat.eqb (bound_handleMessage this)) (listeners w)
    then _handleMessage h this event w
    else ret tt w.


(* ================================================================== *)
(** ** Summaries used to state the properties *)
(* ================================================================== *)

Section ParamLoop.

Variable h : Host.
Variable opts : Config.

(** One iteration of the loop over the keys. *)
Definition param_step (params : Params) (kv : string * JsValue) : Params :=
  if prefix "on" (fst kv) then params
  else params_set (fst kv) (ToString h (field opts (fst kv))) params.

(** The fields that end up after the display-mode parameter. *)
Definition passed_on (kv : string * JsValue) : bool :=
  negb (prefix "on" (fst kv)) && negb (fst kv =? "display_mode").

Definition as_param (kv : string * JsValue) : string * string :=
  (fst kv, ToString h (field opts (fst kv))).

End ParamLoop.

(** The base address after the allow-list test. *)
Definition resolved_origin (h : Host) : string :=
  if includes allowed_origins (JStr (location_origin h))
  then location_origin h else "https://biolock.ai".

(** The path segment and the console output chosen for a page selector. *)
Definition path_segment (page : JsValue) : string :=
  if is_str "createBiolink" page then "create-biolink"
  else if is_str "download" page then "d"
  else if is_str "upload" page then "upload"
  else if is_str "create-biolink" page then "create-biolink"
  else "".

Definition page_log (h : Host) (page : JsValue) : list Event :=
  if includes allowedPages page then []
  else [ConsoleError [LStr (unknown_page_message h page)]].

Definition key_suffix (h : Host) (opts : Config) : string :=
  if truthy (field opts "document_key")
  then ToString h (field opts "document_key") else "".

(* ================================================================== *)
(** ** A concrete page, used by the examples *)
(* ================================================================== *)

(** A host page served from [https://example.com] whose document has one
    element, node 1, matched by the selector [#biolock-container]; every
    element is an [HTMLElement].  User
    function 9 throws the string [boom]; every other one returns.  The
    only text [JSON.parse] is asked to read here is one page-loaded
    message. *)
Definition demo_loaded_text : string :=
  "{" ++ dquote ++ "source" ++ dquote ++ ":" ++ dquote ++ "biolock" ++ dquote ++ ","
      ++ dquote ++ "messageType" ++ dquote ++ ":" ++ dquote ++ "pageLoaded" ++ dquote ++ ","
      ++ dquote ++ "page" ++ dquote ++ ":" ++ dquote ++ "upload" ++ dquote ++ "}".

Definition demo_loaded : JsValue :=
  JObj [("source", JStr "biolock"); ("messageType", JStr "pageLoaded");
        ("page", JStr "upload")].

(** The heights the demo style declaration accepts: decimal digits
    followed by [px]. *)
Fixpoint demo_height_valid (s : string) : bool :=
  match s with
  | EmptyString => false
  | String c rest =>
      let n := nat_of_ascii c in
      ((48 <=? n) && (n <=? 57))%nat && ((rest =? "px") || demo_height_valid rest)
  end.

Definition demo_css_height (s : string) : option string :=
  if demo_height_valid s then Some s else None.

Definition demo_host : Host :=
  mkHost "https://example.com"
         (fun selector => if selector =? "#biolock-container" then QFound 1 else QNull)
         (fun text => if text =? demo_loaded_text then inl demo_loaded
                      else inr "Unexpected token")
         (fun s => negb (s =? "450"))
         (fun _ => "function () { [code] }")
         (fun _ => "[object HTMLDivElement]")
         (fun f => Some (100 + f))
         (fun _ => true)
         demo_css_height
         (fun f _ => if Nat.eqb f 9 then CbThrow (ExnValue (JStr "boom")) else CbReturn).

(** The anchor (node 1) holds one earlier child, node 2; ids from 10 on
    are unused and no listener is registered yet. *)
Definition demo_world : World :=
  mkWorld 10 (fun n => if Nat.eqb n 2 then Some 1 else None) (fun _ => blank_iframe) [].

Definition demo_upload : Config :=
  [("container", JStr "#biolock-container"); ("page", JStr "upload");
   ("displayed_title", JStr "Upload Your Document"); ("primary_color", JStr "FF5733");
   ("onPageLoaded", JFun 3); ("onError", JFun 9)].

Definition demo_download : Config :=
  [("container", JStr "#biolock-container"); ("page", JStr "download");
   ("document_key", JStr "abc123"); ("onDocumentNotFound", JFun 4); ("onError", JFun 5)].

(** The controller built from [demo_upload] on the demo page: its frame
    is node 10, whose window is 110, and its listener is handle 11. *)
Definition demo_run : Run Controller := constructor demo_host (JObj demo_upload) demo_world.

Definition demo_mounted : World := world demo_run.

Definition demo_controller : Controller :=
  match completion demo_run with
  | Normal this => this
  | Throw _ => mkController None None None None 0
  end.

(* ================================================================== *)
(** ** Summaries of the message handler *)
(* ================================================================== *)

(** The two guards at the top of [_handleMessage] as a test: the event
    comes from the window of this instance's frame, and its payload
    carries the tag [biolock]. *)
Definition from_own_frame (h : Host) (this : Controller) (w : World)
           (event : MessageEvent) : bool :=
  match source event, iframe this with
  | Some from, Some f => option_nat_eqb (Some from) (contentWindow h f w)
  | _, _ => false
  end.

Definition tagged (payload : JsValue) : bool :=
  match get payload "source" with
  | inl tag => is_str "biolock" tag
  | inr _ => false
  end.

Definition accepted (h : Host) (this : Controller) (w : World)
           (event : MessageEvent) : bool :=
  from_own_frame h this w event && tagged (data event).

Definition is_call (e : Event) : bool :=
  match e with Call _ _ _ => true | _ => false end.

Definition is_post (e : Event) : bool :=
  match e with PostMessage _ _ _ => true | _ => false end.

(** What one guarded call leaves in the trace. *)
Definition invoke_trace (h : Host) (slot : Slot) (cb arg : JsValue) : list Event :=
  match cb with
  | JFun f =>
      Call slot f arg
      :: match call h f arg with
         | CbReturn => []
         | CbThrow e => [ConsoleError [LExn e]]
         end
  | _ => [ConsoleError [LExn (ExnTypeError "this.callbacks[...] is not a function")]]
  end.

Definition guarded_trace (h : Host) (slot : Slot) (cb arg : JsValue) : list Event :=
  if truthy cb then invoke_trace h slot cb arg else [].

Definition error_trace (h : Host) (table : CallbackTable)
           (props : list (string * JsValue)) : list Event :=
  let code := field props "errorCode" in
  if is_str "documentNotFound" code then
    if truthy (table documentNotFound)
    then invoke_trace h documentNotFound (table documentNotFound) (field props "errorMessage")
    else guarded_trace h error (table error) (field props "errorMessage")
  else if is_str "biolinkNotCreated" code then
    if truthy (table biolinkNotCreated)
    then invoke_trace h biolinkNotCreated (table biolinkNotCreated) (field props "errorMessage")
    else guarded_trace h error (table error) (JObj props)
  else
    guarded_trace h error (table error)
                  (js_or (js_or (field props "error") (field props "message")) (JObj props)).

(** The trace of the switch on an object payload, for a controller whose
    table is [table] and whose frame window is [target]. *)
Definition reaction_trace (h : Host) (table : CallbackTable) (target : WindowId)
           (props : list (string * JsValue)) : list Event :=
  let messageType := field props "messageType" in
  if is_str "contentSize" messageType then []
  else if is_str "pageLoaded" messageType then
    PostMessage target originProof "*"
    :: guarded_trace h pageLoaded (table pageLoaded) (field props "page")
  else if is_str "documentAttributes" messageType then
    guarded_trace h documentAttributes (table documentAttributes)
                  (JObj [("firstDownloadedAt", field props "firstDownloadedAt")])
  else if is_str "jsonToParent" messageType then
    guarded_trace h jsonToParent (table jsonToParent) (field props "json")
  else if is_str "documentDelivery" messageType then
    guarded_trace h documentDelivery (table documentDelivery) (field props "delivered")
  else if is_str "documentFilesAutoDownloaded" messageType then
    guarded_trace h documentFilesAutoDownloaded (table documentFilesAutoDownloaded)
                  (field props "downloaded")
  else if is_str "certifiedSenderPhoto" messageType then
    guarded_trace h certifiedSenderPhoto (table certifiedSenderPhoto) (field props "photo")
  else if is_str "createdDocument" messageType then
    guarded_trace h createdDocument (table createdDocument)
                  (JObj [("documentKey", field props "documentKey");
                         ("documentUrl", field props "documentUrl")])
  else if is_str "createdBiolink" messageType then
    guarded_trace h createdBiolink (table createdBiolink)
                  (JObj [("biolinkKey", field props "biolinkKey");
                         ("biolinkUrl", field props "biolinkUrl")])
  else if is_str "error" messageType then error_trace h table props
  else [ConsoleLog [LStr ("message from Biolock not handled" ++ ToString h (JObj props))]].

(** The world after the switch: only a content-size report with a usable
    height that the style declaration accepts writes anything, the
    frame's height. *)
Definition reaction_world (h : Host) (f : NodeId) (props : list (string * JsValue))
           (w : World) : World :=
  let newHeight := field props "height" in
  if is_str "contentSize" (field props "messageType")
     && negb (negb (truthy newHeight) || isNaN h newHeight)
  then match css_height h (ToString h newHeight ++ "px")%string with
       | Some kept =>
           mkWorld (next_id w) (parentNode w)
                   (update (frames w) f
                           (mkIframe (src (frames w f)) (cssText (frames w f))
                                     (allow (frames w f)) (attributes (frames w f))
                                     (display (frames w f)) (Some kept)))
                   (listeners w)
       | None => w
       end
  else w.

(** The same host with other user functions. *)
Definition with_call (h : Host) (c : FnId -> JsValue -> CbOutcome) : Host :=
  mkHost (location_origin h) (querySelector h) (JSON_parse h) (isNaN_string h)
         (fn_to_string h) (elem_to_string h) (browsing_context h)
         (instanceof_HTMLElement h) (css_height h) c.

(* ================================================================== *)
(** ** Summary of the anchor lookup *)
(* ================================================================== *)

(** The element a [container] option stands for, if any: the match of a
    selector string, or the value itself when it is an [HTMLElement]. *)
Definition anchor_of (h : Host) (container : JsValue) : option NodeId :=
  match container with
  | JStr selector =>
      match querySelector h selector with
      | QFound e => Some e
      | _ => None
      end
  | JElem e => if instanceof_HTMLElement h e then Some e else None
  | _ => None
  end.

(* ================================================================== *)
(** ** Summaries of construction *)
(* ================================================================== *)

(** The string [_buildIframeUrl] returns. *)
Definition built_url (h : Host) (opts : Config) : string :=
  (resolved_origin h ++ "/" ++ path_segment (field opts "page") ++ "?"
   ++ params_toString (query_params h opts) ++ key_suffix h opts)%string.

(** The world a successful construction leaves: frame [next_id w] is
    created with its properties set, the anchor's children are detached,
    the frame is appended, and listener [S (next_id w)] is registered. *)
Definition mounted_world (h : Host) (opts : Config) (anchor : NodeId) (w : World) : World :=
  let f := next_id w in
  mkWorld (S (S f))
          (update (fun n => match update (parentNode w) f None n with
                            | Some p => if Nat.eqb p anchor then None else Some p
                            | None => None
                            end)
                  f (Some anchor))
          (update (update (frames w) f blank_iframe) f
                  (mkIframe (built_url h opts)
                            (ToString h (js_or (field opts "style") (JStr "")))
                            "camera"
                            [("allowfullscreen", "true"); ("scrolling", "no")]
                            (Some "none") None))
          (listeners w ++ [S f]).

(** The instance a successful construction returns. *)
Definition mounted_controller (opts : Config) (anchor : NodeId) (w : World) : Controller :=
  mkController (Some anchor) (Some opts) (Some (make_callbacks opts))
               (Some (next_id w)) (S (next_id w)).

(** The arms of the switch that hand one payload field to one callback:
    slot, discriminator, field. *)
Definition relay_arms : list (Slot * string * string) :=
  [(jsonToParent, "jsonToParent", "json");
   (documentDelivery, "documentDelivery", "delivered");
   (documentFilesAutoDownloaded, "documentFilesAutoDownloaded", "downloaded");
   (certifiedSenderPhoto, "certifiedSenderPhoto", "photo")].


(** The test of the loop over the keys: the field is not a callback. *)
Definition not_callback_field (kv : string * JsValue) : bool :=
  negb (prefix "on" (fst kv)).

(** The same host with another [JSON.parse]. *)
Definition with_parse (h : Host) (parse : string -> JsValue + string) : Host :=
  mkHost (location_origin h) (querySelector h) parse (isNaN_string h)
         (fn_to_string h) (elem_to_string h) (browsing_context h)
         (instanceof_HTMLElement h) (css_height h) (call h).
(* ================================================================== *)
(** * Properties *)
(* ================================================================== *)

(** ** Strings and parameter lists *)

Lemma append_assoc (a b c : string) : ((a ++ b) ++ c = a ++ (b ++ c))%string.
Proof.
  induction a as [|x a IH]; simpl; [reflexivity | now rewrite IH].
Qed.

Lemma append_empty_r (a : string) : (a ++ "")%string = a.
Proof.
  induction a as [|x a IH]; simpl; [reflexivity | now rewrite IH].
Qed.

Lemma filter_absent (name : string) (ps : Params) :
  ~ In name (map fst ps) ->
  filter (fun kv => negb (fst kv =? name)) ps = ps.
Proof.
  induction ps as [|[k v] ps IH]; simpl; intros Hn; [reflexivity|].
  destruct (String.eqb_spec k name) as [->|Hk].
  - exfalso. apply Hn. now left.
  - simpl. rewrite IH; [reflexivity|]. intros Hin. apply Hn. now right.
Qed.

Lemma params_set_absent (name value : string) (ps : Params) :
  ~ In name (map fst ps) ->
  params_set name value ps = ps ++ [(name, value)].
Proof.
  induction ps as [|[k v] ps IH]; simpl; intros Hn; [reflexivity|].
  destruct (String.eqb_spec k name) as [->|Hk].
  - exfalso. apply Hn. now left.
  - rewrite IH; [reflexivity|]. intros Hin. apply Hn. now right.
Qed.

Lemma params_set_head (name value k v : string) (rest : Params) :
  exists v' rest', params_set name value ((k, v) :: rest) = (k, v') :: rest'.
Proof.
  simpl. destruct (k =? name); eauto.
Qed.

Lemma lookup_in_nodup (k : string) (v : JsValue) (props : list (string * JsValue)) :
  NoDup (map fst props) -> In (k, v) props -> lookup k props = Some v.
Proof.
  induction props as [|[k' v'] props IH]; simpl; intros Hnd Hin; [contradiction|].
  inversion Hnd as [|? ? Hnotin Hnd']; subst.
  destruct Hin as [Heq|Hin].
  - inversion Heq; subst. now rewrite String.eqb_refl.
  - destruct (String.eqb_spec k' k) as [->|Hk].
    + exfalso. apply Hnotin. apply (in_map fst) in Hin. exact Hin.
    + now apply IH.
Qed.

Lemma lookup_absent (k : string) (props : list (string * JsValue)) :
  ~ In k (map fst props) -> lookup k props = None.
Proof.
  induction props as [|[k' v'] props IH]; simpl; intros Hn; [reflexivity|].
  destruct (String.eqb_spec k' k) as [->|Hk].
  - exfalso. apply Hn. now left.
  - apply IH. intros Hin. apply Hn. now right.
Qed.

Lemma lookup_some_in (k : string) (v : JsValue) (props : list (string * JsValue)) :
  lookup k props = Some v -> In (k, v) props.
Proof.
  induction props as [|[k' v'] props IH]; simpl; [discriminate|].
  destruct (String.eqb_spec k' k) as [->|Hk].
  - intros [= ->]. now left.
  - intros H. right. now apply IH.
Qed.

(** ** The query parameters built by [_buildIframeUrl] *)

Section QueryParams.

Variable h : Host.
Variable opts : Config.

Local Arguments String.eqb : simpl never.
Local Arguments prefix : simpl never.


Lemma query_params_fold :
  query_params h opts = fold_left (param_step h opts) opts [("display_mode", "reduced")].
Proof. reflexivity. Qed.

(** The loop never displaces the first parameter's name. *)
Lemma fold_keeps_head (l : Config) (x : string) (rest : Params) :
  exists x' rest',
    fold_left (param_step h opts) l (("display_mode", x) :: rest)
    = ("display_mode", x') :: rest'.
Proof.
  revert x rest.
  induction l as [|kv l IH]; intros x rest; simpl; [eauto|].
  unfold param_step at 2.
  destruct (prefix "on" (fst kv)); [apply IH|].
  destruct (params_set_head (fst kv) (ToString h (field opts (fst kv)))
                            "display_mode" x rest) as (x' & rest' & ->).
  apply IH.
Qed.

(** The loop invariant: with distinct keys, a field called
    [display_mode] overwrites the first parameter in place and every
    other serializable field is appended in order. *)
Lemma fold_param_step (l : Config) :
  NoDup (map fst l) ->
  forall (x : string) (rest : Params),
    ~ In "display_mode" (map fst rest) ->
    (forall k, In k (map fst rest) -> ~ In k (map fst l)) ->
    fold_left (param_step h opts) l (("display_mode", x) :: rest)
    = ("display_mode",
       if existsb (fun kv => fst kv =? "display_mode") l
       then ToString h (field opts "display_mode") else x)
      :: rest ++ map (as_param h opts) (filter passed_on l).
Proof.
  induction l as [|[k v] l IH]; intros Hnd x rest Hdm Hdisj; simpl.
  - now rewrite app_nil_r.
  - inversion Hnd as [|? ? Hk Hnd']; subst.
    unfold param_step at 2, passed_on at 1. simpl fst.
    destruct (prefix "on" k) eqn:Hon.
    + assert (Hne : (k =? "display_mode") = false).
      { apply String.eqb_neq. intros ->. discriminate Hon. }
      rewrite Hne. simpl.
      apply IH; auto.
      intros k' Hin Hin'. apply (Hdisj k' Hin). now right.
    + simpl negb. simpl andb.
      destruct (String.eqb_spec k "display_mode") as [->|Hne].
      * simpl.
        rewrite (@filter_absent _ _ Hdm).
        rewrite IH; auto.
        -- assert (Hex : existsb (fun kv => fst kv =? "display_mode") l = false).
           { apply not_true_is_false. intros Hex.
             apply existsb_exists in Hex. destruct Hex as ([k' v'] & Hin & Heq).
             simpl in Heq. apply String.eqb_eq in Heq. subst k'.
             apply Hk. apply (in_map fst) in Hin. exact Hin. }
           now rewrite Hex.
        -- intros k' Hin Hin'. apply (Hdisj k' Hin). now right.
      * simpl.
        assert (Hne' : ("display_mode" =? k) = false).
        { apply String.eqb_neq. congruence. }
        rewrite Hne'.
        rewrite params_set_absent.
        2:{ intros Hin. apply (Hdisj k Hin). now left. }
        rewrite IH; auto.
        -- now rewrite <- app_assoc.
        -- rewrite map_app, in_app_iff. simpl. intros [Hin|[Heq|[]]]; auto.
        -- intros k' Hin Hin'. rewrite map_app, in_app_iff in Hin. simpl in Hin.
           destruct Hin as [Hin|[<-|[]]].
           ++ apply (Hdisj k' Hin). now right.
           ++ now apply Hk.
Qed.

Lemma query_params_nodup :
  NoDup (map fst opts) ->
  query_params h opts
  = ("display_mode",
     match lookup "display_mode" opts with
     | Some v => ToString h v
     | None => "reduced"
     end)
    :: map (fun kv => (fst kv, ToString h (snd kv))) (filter passed_on opts).
Proof.
  intros Hnd. rewrite query_params_fold.
  rewrite (@fold_param_step _ Hnd "reduced" []); simpl; auto.
  f_equal.
  - f_equal. unfold field.
    destruct (lookup "display_mode" opts) as [v|] eqn:Hl.
    + apply lookup_some_in in Hl.
      assert (Hex : existsb (fun kv => fst kv =? "display_mode") opts = true).
      { apply existsb_exists. exists ("display_mode", v). split; auto. }
      now rewrite Hex.
    + assert (Hex : existsb (fun kv => fst kv =? "display_mode") opts = false).
      { apply not_true_is_false. intros Hex.
        apply existsb_exists in Hex. destruct Hex as ([k' v'] & Hin & Heq).
        simpl in Heq. apply String.eqb_eq in Heq. subst k'.
        rewrite (@lookup_in_nodup _ _ _ Hnd Hin) in Hl. discriminate. }
      now rewrite Hex.
  - apply map_ext_in. intros [k v] Hin. apply filter_In in Hin.
    destruct Hin as [Hin _]. unfold as_param, field. simpl.
    now rewrite (@lookup_in_nodup _ _ _ Hnd Hin).
Qed.

Lemma query_params_head :
  exists x rest, query_params h opts = ("display_mode", x) :: rest.
Proof.
  rewrite query_params_fold. apply fold_keeps_head.
Qed.

Lemma queryString_nonempty :
  (params_toString (query_params h opts) =? "") = false.
Proof.
  destruct query_params_head as (x & rest & ->).
  destruct rest as [|[k v] rest]; reflexivity.
Qed.

End QueryParams.

(** ** The shape of the generated URL *)

Lemma includes_true (l : list string) (v : JsValue) :
  includes l v = true -> exists s, v = JStr s /\ In s l.
Proof.
  unfold includes. intros H. apply existsb_exists in H.
  destruct H as (s & Hin & Hs).
  destruct v; simpl in Hs; try discriminate.
  apply String.eqb_eq in Hs. subst. eauto.
Qed.

Lemma includes_false (l : list string) (s : string) :
  includes l (JStr s) = false -> ~ In s l.
Proof.
  unfold includes. intros H Hin.
  assert (Ht : existsb (fun s0 => is_str s0 (JStr s)) l = true).
  { apply existsb_exists. exists s. split; [exact Hin|]. simpl. apply String.eqb_refl. }
  congruence.
Qed.


Lemma resolved_origin_no_trailing_slash (h : Host) :
  strip_trailing_slash (resolved_origin h) = resolved_origin h.
Proof.
  unfold resolved_origin.
  destruct (includes allowed_origins (JStr (location_origin h))) eqn:Hi.
  - apply includes_true in Hi. destruct Hi as (s & Heq & Hin).
    injection Heq as <-.
    simpl in Hin.
    destruct Hin as [<-|[<-|[<-|[<-|[<-|[]]]]]]; reflexivity.
  - reflexivity.
Qed.



Ltac url_tail dk :=
  destruct (truthy dk); rewrite ?append_empty_r, ?append_assoc; reflexivity.

Lemma buildIframeUrl_run (h : Host) (opts : Config) (w : World) :
  _buildIframeUrl h opts w
  = mkRun (page_log h (field opts "page")) w
          (Normal (resolved_origin h ++ "/" ++ path_segment (field opts "page")
                   ++ "?" ++ params_toString (query_params h opts)
                   ++ key_suffix h opts)%string).
Proof.
  unfold _buildIframeUrl, page_log, key_suffix.
  fold (resolved_origin h).
  rewrite resolved_origin_no_trailing_slash.
  rewrite queryString_nonempty. simpl negb. cbv iota.
  set (qs := params_toString (query_params h opts)).
  set (dk := field opts "document_key").
  set (o := resolved_origin h).
  destruct (includes allowedPages (field opts "page")) eqn:Hi.
  - apply includes_true in Hi. destruct Hi as (s & Heq & Hin).
    rewrite Heq. simpl in Hin.
    destruct Hin as [<-|[<-|[<-|[]]]];
      unfold bind, ret, lift; simpl; url_tail dk.
  - unfold path_segment.
    destruct (is_str "createBiolink" (field opts "page")) eqn:Hc.
    + destruct (is_str "download" (field opts "page")) eqn:Hd;
        unfold bind, ret, lift, console_error, emit; simpl; url_tail dk.
    + destruct (is_str "download" (field opts "page")) eqn:Hd.
      * exfalso. destruct (field opts "page"); simpl in Hd; try discriminate.
        apply String.eqb_eq in Hd. subst. discriminate Hi.
      * destruct (is_str "upload" (field opts "page")) eqn:Hu.
        { exfalso. destruct (field opts "page"); simpl in Hu; try discriminate.
          apply String.eqb_eq in Hu. subst. discriminate Hi. }
        destruct (is_str "create-biolink" (field opts "page")) eqn:Hb.
        { exfalso. destruct (field opts "page"); simpl in Hb; try discriminate.
          apply String.eqb_eq in Hb. subst. discriminate Hi. }
        unfold bind, ret, lift, console_error, emit; simpl; url_tail dk.
Qed.

Ltac distinct_keys :=
  simpl; repeat (constructor; [simpl; intuition discriminate|]); constructor.

(** ** Claims about the generated URL *)

(** C6 at the selector [create-biolink], which is none of [upload],
    [download], [createBiolink]: the allow-list of the builder names the
    path [create-biolink] where the documented selector [createBiolink]
    belongs, so this selector keeps its path, the URL does not point at
    the root path and nothing is logged; and the documented selector
    [createBiolink] is reported as an unknown page although it is mapped
    to its segment. *)
Theorem C6_create_biolink_selector :
  let opts := [("container", JStr "#biolock-container"); ("page", JStr "create-biolink")] in
  let documented := [("container", JStr "#biolock-container"); ("page", JStr "createBiolink")] in
  let r := _buildIframeUrl demo_host opts demo_world in
  field opts "page" <> JStr "upload" /\
  field opts "page" <> JStr "download" /\
  field opts "page" <> JStr "createBiolink" /\
  completion r
  = Normal "https://biolock.ai/create-biolink?display_mode=reduced&container=%23biolock-container&page=create-biolink" /\
  trace r = [] /\
  ~ (exists rest, completion r = Normal ("https://biolock.ai/" ++ "?" ++ rest)%string) /\
  ~ (exists items, In (ConsoleError items) (trace r)) /\
  trace (_buildIframeUrl demo_host documented demo_world)
  = [ConsoleError [LStr (unknown_page_message demo_host (JStr "createBiolink"))]] /\
  completion (_buildIframeUrl demo_host documented demo_world)
  = Normal "https://biolock.ai/create-biolink?display_mode=reduced&container=%23biolock-container&page=createBiolink".
Proof.
  cbv zeta. repeat split; try discriminate; try reflexivity.
  - intros [rest H]. vm_compute in H. discriminate H.
  - intros [items H]. vm_compute in H. exact H.
Qed.

(** X19: what the builder does for every configuration: the origin of
    the generated URL is the host page's origin when it is one of the
    five allow-listed origins and [https://biolock.ai] otherwise; the
    selector [upload] gives the segment [upload], [download] gives [d],
    [createBiolink] and the literal [create-biolink] give
    [create-biolink]; every other selector gives the root path and one
    console error, and the builder still returns. *)
Theorem origin_and_path (h : Host) (opts : Config) (w : World) :
  let r := _buildIframeUrl h opts w in
  let page := field opts "page" in
  exists origin segment rest : string,
    completion r = Normal (origin ++ "/" ++ segment ++ "?" ++ rest)%string /\
    world r = w /\
    (In (location_origin h)
        ["http://127.0.0.1:3000"; "http://localhost:3000"; "http://localhost:8000";
         "https://dev.biolock.ai"; "https://biolock.ai"] ->
     origin = location_origin h) /\
    (~ In (location_origin h)
          ["http://127.0.0.1:3000"; "http://localhost:3000"; "http://localhost:8000";
           "https://dev.biolock.ai"; "https://biolock.ai"] ->
     origin = "https://biolock.ai") /\
    (page = JStr "upload" -> segment = "upload") /\
    (page = JStr "download" -> segment = "d") /\
    (page = JStr "createBiolink" -> segment = "create-biolink") /\
    (page = JStr "create-biolink" -> segment = "create-biolink" /\ trace r = []) /\
    (page <> JStr "upload" -> page <> JStr "download" ->
     page <> JStr "createBiolink" -> page <> JStr "create-biolink" ->
     segment = "" /\ trace r = [ConsoleError [LStr (unknown_page_message h page)]]).
Proof.
  cbv zeta. rewrite buildIframeUrl_run. simpl.
  exists (resolved_origin h), (path_segment (field opts "page")),
         (params_toString (query_params h opts) ++ key_suffix h opts)%string.
  split; [reflexivity|]. split; [reflexivity|].
  split; [|split].
  - intros Hin. unfold resolved_origin.
    destruct (includes allowed_origins (JStr (location_origin h))) eqn:Hi; [reflexivity|].
    apply includes_false in Hi. contradiction.
  - intros Hnin. unfold resolved_origin.
    destruct (includes allowed_origins (JStr (location_origin h))) eqn:Hi; [|reflexivity].
    apply includes_true in Hi. destruct Hi as (s & Heq & Hin).
    injection Heq as <-. contradiction.
  - repeat match goal with |- _ /\ _ => split end;
      try (intros ->; reflexivity).
    + intros ->. split; reflexivity.
    + intros Hu Hd Hc Hb. split.
      * unfold path_segment.
        destruct (field opts "page") as [| |b|n| |s|props|f|e]; try reflexivity.
        simpl.
        destruct (String.eqb_spec s "createBiolink") as [->|_]; [congruence|].
        destruct (String.eqb_spec s "download") as [->|_]; [congruence|].
        destruct (String.eqb_spec s "upload") as [->|_]; [congruence|].
        destruct (String.eqb_spec s "create-biolink") as [->|_]; [congruence|].
        reflexivity.
      * unfold page_log.
        destruct (includes allowedPages (field opts "page")) eqn:Hi; [|reflexivity].
        apply includes_true in Hi. destruct Hi as (s & Heq & Hin).
        simpl in Hin. destruct Hin as [<-|[<-|[<-|[]]]]; congruence.
Qed.

(** C5, as stated, at a configuration that has a [display_mode] field of
    its own: the query string neither keeps the fixed flag
    [display_mode=reduced] nor lists the field in its mapping position. *)
Lemma C5_counterexample :
  let opts := [("container", JStr "#biolock-container"); ("page", JStr "upload");
               ("display_mode", JStr "full")] in
  NoDup (map fst opts) /\
  completion (_buildIframeUrl demo_host opts demo_world)
  = Normal "https://biolock.ai/upload?display_mode=full&container=%23biolock-container&page=upload" /\
  query_params demo_host opts
  <> ("display_mode", "reduced")
       :: map (fun kv => (fst kv, ToString demo_host (snd kv)))
              (filter (fun kv => negb (prefix "on" (fst kv))) opts).
Proof.
  cbv zeta. split; [distinct_keys|]. split; [reflexivity|].
  vm_compute. discriminate.
Qed.

(** C5 (amended): for a configuration with distinct field names, the
    query string is the display-mode parameter (the fixed value [reduced],
    or the configuration's own [display_mode] value when it has one)
    followed by every other field whose name does not start with [on], in
    mapping order, each value converted to a string and form-urlencoded;
    a truthy document key, and in particular any string one, is then
    appended as it is, with no separator, and a missing or falsy one
    ([0], [null], [false], [undefined], [NaN], the empty string) appends
    nothing. *)
Theorem C5_query_string (h : Host) (opts : Config) (w : World) :
  NoDup (map fst opts) ->
  let pairs :=
    ("display_mode",
     match lookup "display_mode" opts with
     | Some v => ToString h v
     | None => "reduced"
     end)
    :: map (fun kv => (fst kv, ToString h (snd kv)))
           (filter (fun kv => negb (prefix "on" (fst kv))
                              && negb (fst kv =? "display_mode")) opts) in
  exists suffix : string,
    completion (_buildIframeUrl h opts w)
    = Normal (resolved_origin h ++ "/" ++ path_segment (field opts "page")
              ++ "?" ++ params_toString pairs ++ suffix)%string /\
    (truthy (field opts "document_key") = true ->
     suffix = ToString h (field opts "document_key")) /\
    (truthy (field opts "document_key") = false -> suffix = "") /\
    (forall s, lookup "document_key" opts = Some (JStr s) -> suffix = s) /\
    (lookup "document_key" opts = None -> suffix = "").
Proof.
  intros Hnd. cbv zeta. rewrite buildIframeUrl_run. simpl completion.
  rewrite (@query_params_nodup h opts Hnd).
  exists (key_suffix h opts). split; [reflexivity|].
  unfold key_suffix, field. repeat match goal with |- _ /\ _ => split end.
  - intros ->. reflexivity.
  - intros ->. reflexivity.
  - intros s ->. simpl. destruct s; reflexivity.
  - intros ->. reflexivity.
Qed.

Lemma C5_query_string_witness :
  NoDup (map fst demo_download) /\
  exists suffix : string,
    completion (_buildIframeUrl demo_host demo_download demo_world)
    = Normal (resolved_origin demo_host ++ "/" ++ path_segment (field demo_download "page")
              ++ "?"
              ++ params_toString
                   [("display_mode", "reduced"); ("container", "#biolock-container");
                    ("page", "download"); ("document_key", "abc123")]
              ++ suffix)%string /\
    (truthy (field demo_download "document_key") = true ->
     suffix = ToString demo_host (field demo_download "document_key")) /\
    (truthy (field demo_download "document_key") = false -> suffix = "") /\
    (forall s, lookup "document_key" demo_download = Some (JStr s) -> suffix = s) /\
    (lookup "document_key" demo_download = None -> suffix = "").
Proof.
  split; [distinct_keys|].
  apply (@C5_query_string demo_host demo_download demo_world). distinct_keys.
Defined.

(** ** The document key in the URL *)

Lemma params_toString_cons (p : string * string) (ps : Params) :
  params_toString (p :: ps)
  = (form_encode (fst p) ++ "=" ++ form_encode (snd p)
     ++ match ps with [] => "" | _ :: _ => "&" ++ params_toString ps end)%string.
Proof.
  destruct p as [k v]. destruct ps as [|q ps]; simpl.
  - now rewrite append_empty_r.
  - reflexivity.
Qed.

Lemma params_toString_app (a : Params) (p : string * string) (b : Params) :
  a <> [] ->
  params_toString (a ++ p :: b)
  = (params_toString a ++ "&" ++ params_toString (p :: b))%string.
Proof.
  induction a as [|q a IH]; intros Hne; [congruence|].
  destruct a as [|q' a].
  - simpl app. rewrite (params_toString_cons q (p :: b)).
    rewrite (params_toString_cons q []). rewrite append_empty_r.
    now rewrite !append_assoc.
  - change ((q :: q' :: a) ++ p :: b) with (q :: ((q' :: a) ++ p :: b)).
    rewrite (params_toString_cons q ((q' :: a) ++ p :: b)).
    rewrite (params_toString_cons q (q' :: a)).
    simpl app at 1. cbv iota.
    change (q' :: a ++ p :: b) with ((q' :: a) ++ p :: b).
    rewrite IH by discriminate.
    now rewrite !append_assoc.
Qed.

(** C10, as stated, at a configuration whose [document_key] is the
    number [0]: the key is a query parameter, but it is not appended
    after the query string, so it occurs once. *)
Lemma C10_counterexample :
  let opts := [("container", JStr "#biolock-container"); ("page", JStr "download");
               ("document_key", JNum 0)] in
  let r := _buildIframeUrl demo_host opts demo_world in
  NoDup (map fst opts) /\
  lookup "document_key" opts = Some (JNum 0) /\
  completion r
  = Normal "https://biolock.ai/d?display_mode=reduced&container=%23biolock-container&page=download&document_key=0" /\
  completion r
  <> Normal (resolved_origin demo_host ++ "/" ++ path_segment (field opts "page") ++ "?"
             ++ params_toString (query_params demo_host opts)
             ++ ToString demo_host (JNum 0))%string.
Proof.
  cbv zeta. split; [distinct_keys|]. split; [reflexivity|]. split; [reflexivity|].
  vm_compute. discriminate.
Qed.

(** C10 (amended): when the configuration (distinct field names) has a
    [document_key] field, its value, converted to a string, occurs
    form-urlencoded as the value of the [document_key] query parameter.
    When the value is truthy, or is any string, it occurs once more, raw
    and without a separator, right after the query string; when it is
    falsy ([0], [null], [false], [undefined], [NaN], the empty string)
    nothing follows the query string. *)
Theorem C10_document_key_twice (h : Host) (opts : Config) (w : World) (v : JsValue) :
  NoDup (map fst opts) ->
  lookup "document_key" opts = Some v ->
  exists before after : string,
    params_toString (query_params h opts)
    = (before ++ "&document_key=" ++ form_encode (ToString h v) ++ after)%string /\
    (after = "" \/ exists more, after = ("&" ++ more)%string) /\
    (truthy v = true \/ (exists s, v = JStr s) ->
     completion (_buildIframeUrl h opts w)
     = Normal (resolved_origin h ++ "/" ++ path_segment (field opts "page") ++ "?"
               ++ (before ++ "&document_key=" ++ form_encode (ToString h v) ++ after)
               ++ ToString h v)%string) /\
    (truthy v = false ->
     completion (_buildIframeUrl h opts w)
     = Normal (resolved_origin h ++ "/" ++ path_segment (field opts "page") ++ "?"
               ++ (before ++ "&document_key=" ++ form_encode (ToString h v) ++ after))%string).
Proof.
  intros Hnd Hlook.
  assert (Hin : In ("document_key", ToString h v)
                   (map (fun kv => (fst kv, ToString h (snd kv))) (filter passed_on opts))).
  { apply in_map_iff. exists ("document_key", v). split; [reflexivity|].
    apply filter_In. split; [now apply lookup_some_in | reflexivity]. }
  apply in_split in Hin. destruct Hin as (l1 & l2 & Hsplit).
  assert (Hqp := @query_params_nodup h opts Hnd). rewrite Hsplit in Hqp.
  set (first := ("display_mode",
                 match lookup "display_mode" opts with
                 | Some v0 => ToString h v0
                 | None => "reduced"
                 end)) in Hqp.
  assert (Hqs : params_toString (query_params h opts)
                = (params_toString (first :: l1) ++ "&document_key="
                   ++ form_encode (ToString h v)
                   ++ match l2 with [] => "" | _ :: _ => "&" ++ params_toString l2 end)%string).
  { rewrite Hqp.
    change (first :: l1 ++ ("document_key", ToString h v) :: l2)
      with ((first :: l1) ++ ("document_key", ToString h v) :: l2).
    rewrite params_toString_app by discriminate.
    rewrite (params_toString_cons ("document_key", ToString h v) l2).
    reflexivity. }
  exists (params_toString (first :: l1)),
         (match l2 with [] => "" | _ :: _ => "&" ++ params_toString l2 end)%string.
  split; [exact Hqs|]. split; [destruct l2; [now left | right; eauto]|].
  rewrite buildIframeUrl_run. simpl completion. rewrite Hqs.
  unfold key_suffix, field. rewrite Hlook.
  split.
  - intros [Ht|[s ->]].
    + now rewrite Ht.
    + simpl. destruct s; simpl; [|reflexivity].
      now rewrite !append_empty_r.
  - intros ->. now rewrite !append_empty_r.
Qed.

Lemma C10_document_key_twice_witness :
  NoDup (map fst demo_download) /\
  lookup "document_key" demo_download = Some (JStr "abc123") /\
  exists before after : string,
    params_toString (query_params demo_host demo_download)
    = (before ++ "&document_key=" ++ form_encode (ToString demo_host (JStr "abc123"))
       ++ after)%string /\
    (after = "" \/ exists more, after = ("&" ++ more)%string) /\
    (truthy (JStr "abc123") = true \/ (exists s, JStr "abc123" = JStr s) ->
     completion (_buildIframeUrl demo_host demo_download demo_world)
     = Normal (resolved_origin demo_host ++ "/" ++ path_segment (field demo_download "page")
               ++ "?"
               ++ (before ++ "&document_key="
                   ++ form_encode (ToString demo_host (JStr "abc123")) ++ after)
               ++ ToString demo_host (JStr "abc123"))%string) /\
    (truthy (JStr "abc123") = false ->
     completion (_buildIframeUrl demo_host demo_download demo_world)
     = Normal (resolved_origin demo_host ++ "/" ++ path_segment (field demo_download "page")
               ++ "?"
               ++ (before ++ "&document_key="
                   ++ form_encode (ToString demo_host (JStr "abc123")) ++ after))%string).
Proof.
  split; [distinct_keys|]. split; [reflexivity|].
  apply (@C10_document_key_twice demo_host demo_download demo_world (JStr "abc123")).
  - distinct_keys.
  - reflexivity.
Defined.

(** The download example of the specification, evaluated. *)
Example download_url_example :
  completion (_buildIframeUrl demo_host demo_download demo_world)
  = Normal "https://biolock.ai/d?display_mode=reduced&container=%23biolock-container&page=download&document_key=abc123abc123".
Proof. reflexivity. Qed.

(** ** The effect monad *)

Lemma run_eta {A} (r : Run A) : mkRun (trace r) (world r) (completion r) = r.
Proof. destruct r; reflexivity. Qed.

Lemma bind_ret {A B} (a : A) (k : A -> Eff B) (w : World) :
  bind (ret a) k w = k a w.
Proof. unfold bind, ret. simpl. apply run_eta. Qed.

Lemma bind_read {A B} (f : World -> A) (k : A -> Eff B) (w : World) :
  bind (read f) k w = k (f w) w.
Proof. unfold bind, read. simpl. apply run_eta. Qed.

Lemma bind_run {A B} (m : Eff A) (k : A -> Eff B) (w w1 : World)
      (t : list Event) (a : A) :
  m w = mkRun t w1 (Normal a) ->
  bind m k w = prefixed t (k a w1).
Proof. intros H. unfold bind, prefixed. now rewrite H. Qed.

Lemma prefixed_nil {A} (r : Run A) : prefixed [] r = r.
Proof. apply run_eta. Qed.

Lemma bind_modify {B} (g : World -> World) (k : unit -> Eff B) (w : World) :
  bind (modify g) k w = k tt (g w).
Proof. unfold bind, modify. simpl. apply run_eta. Qed.

Lemma bind_emit {B} (e : Event) (k : unit -> Eff B) (w : World) :
  bind (emit e) k w
  = mkRun (e :: trace (k tt w)) (world (k tt w)) (completion (k tt w)).
Proof. reflexivity. Qed.

(** ** The message handler on accepted messages *)

Lemma tagged_object (payload : JsValue) :
  tagged payload = true ->
  exists props, payload = JObj props /\ field props "source" = JStr "biolock".
Proof.
  unfold tagged, get, field.
  destruct payload as [| |b|n| |s|props|f|e]; simpl; try discriminate.
  intros H. exists props. split; [reflexivity|].
  destruct (lookup "source" props) as [tag|]; simpl in H; [|discriminate].
  destruct tag; simpl in H; try discriminate.
  apply String.eqb_eq in H. now subst.
Qed.

Lemma accepted_inv (h : Host) (this : Controller) (w : World) (event : MessageEvent) :
  accepted h this w event = true ->
  exists f target props,
    iframe this = Some f /\ source event = Some target /\
    contentWindow h f w = Some target /\
    data event = JObj props /\ field props "source" = JStr "biolock".
Proof.
  unfold accepted, from_own_frame. intros H.
  apply andb_true_iff in H. destruct H as [Hown Htag].
  destruct (source event) as [from|]; [|discriminate].
  destruct (iframe this) as [f|]; [|discriminate].
  destruct (contentWindow h f w) as [target|] eqn:Hcw; [|discriminate].
  simpl in Hown. apply Nat.eqb_eq in Hown. subst target.
  destruct (tagged_object _ Htag) as (props & Hd & Hs).
  exists f, from, props. auto.
Qed.

Lemma handleMessage_accepted (h : Host) (this : Controller) (w : World)
      (event : MessageEvent) (props : list (string * JsValue)) :
  accepted h this w event = true ->
  data event = JObj props ->
  _handleMessage h this event w = dispatch h this (JObj props) w.
Proof.
  intros Hacc Hdata.
  destruct (accepted_inv _ _ _ _ Hacc) as (f & target & props' & Hf & Hsrc & Hcw & Hd & Htag).
  rewrite Hdata in Hd. injection Hd as <-.
  unfold _handleMessage, the_iframe. rewrite Hsrc, Hf, Hdata.
  rewrite bind_ret, bind_read, Hcw.
  unfold option_nat_eqb. rewrite Nat.eqb_refl. cbv [negb].
  unfold get at 1. fold (field props "source"). rewrite Htag.
  unfold lift at 1. rewrite bind_ret.
  change (is_str "biolock" (JStr "biolock")) with true. cbv [negb].
  unfold parse_if_string. now rewrite bind_ret.
Qed.

Lemma logged_invoke (h : Host) (slot : Slot) (cb arg : JsValue) (w : World) :
  logged (invoke h slot cb arg) w = mkRun (invoke_trace h slot cb arg) w (Normal tt).
Proof.
  unfold logged, try_catch, invoke, invoke_trace.
  destruct cb; try reflexivity.
  unfold bind, emit, ret, throw, console_error. simpl.
  destruct (call h f arg); reflexivity.
Qed.

Lemma logged_get_invoke (h : Host) (slot : Slot) (cb : JsValue)
      (props : list (string * JsValue)) (prop : string) (w : World) :
  logged (arg <- lift (get (JObj props) prop);; invoke h slot cb arg) w
  = mkRun (invoke_trace h slot cb (field props prop)) w (Normal tt).
Proof.
  rewrite <- logged_invoke.
  unfold logged, try_catch, bind, lift, get, ret. simpl. fold (field props prop).
  destruct (invoke h slot cb (field props prop) w) as [t w' [[]|e]]; reflexivity.
Qed.

Lemma bind_get {B} (props : list (string * JsValue)) (prop : string)
      (k : JsValue -> Eff B) (w : World) :
  bind (lift (get (JObj props) prop)) k w = k (field props prop) w.
Proof. apply (bind_ret (field props prop) k w). Qed.

Lemma notify_run (h : Host) (this : Controller) (table : CallbackTable) (slot : Slot)
      (props : list (string * JsValue)) (prop : string) (w : World) :
  callbacks this = Some table ->
  notify h this slot (JObj props) prop w
  = mkRun (guarded_trace h slot (table slot) (field props prop)) w (Normal tt).
Proof.
  intros Hcb. unfold notify, callback, guarded_trace. rewrite Hcb, bind_ret.
  destruct (truthy (table slot)); [apply logged_get_invoke | reflexivity].
Qed.

Lemma is_str_truthy (s : string) (v : JsValue) :
  s <> "" -> truthy v && is_str s v = is_str s v.
Proof.
  intros Hs. destruct v; simpl; try reflexivity.
  - now rewrite andb_false_r.
  - now rewrite andb_false_r.
  - destruct (String.eqb_spec s0 s) as [->|_]; [|now rewrite andb_false_r].
    destruct (String.eqb_spec s "") as [->|_]; [congruence|reflexivity].
Qed.

Lemma handle_error_run (h : Host) (this : Controller) (table : CallbackTable)
      (props : list (string * JsValue)) (w : World) :
  callbacks this = Some table ->
  handle_error h this (JObj props) w = mkRun (error_trace h table props) w (Normal tt).
Proof.
  intros Hcb. unfold handle_error, error_trace, callback, guarded_trace. rewrite Hcb.
  rewrite bind_get.
  rewrite !is_str_truthy by discriminate.
  destruct (is_str "documentNotFound" (field props "errorCode")).
  { rewrite bind_ret.
    destruct (truthy (table documentNotFound)); [apply logged_get_invoke|].
    rewrite bind_ret.
    destruct (truthy (table error)); [apply logged_get_invoke | reflexivity]. }
  destruct (is_str "biolinkNotCreated" (field props "errorCode")).
  { rewrite bind_ret.
    destruct (truthy (table biolinkNotCreated)); [apply logged_get_invoke|].
    rewrite bind_ret.
    destruct (truthy (table error)); [apply logged_invoke | reflexivity]. }
  rewrite bind_ret.
  destruct (truthy (table error)); [|reflexivity].
  rewrite bind_get. unfold js_or.
  destruct (truthy (field props "error")) eqn:He.
  - rewrite bind_ret, He. apply logged_invoke.
  - rewrite bind_get. apply logged_invoke.
Qed.

Lemma dispatch_run (h : Host) (this : Controller) (table : CallbackTable)
      (f : NodeId) (target : WindowId) (props : list (string * JsValue)) (w : World) :
  callbacks this = Some table ->
  iframe this = Some f ->
  contentWindow h f w = Some target ->
  dispatch h this (JObj props) w
  = mkRun (reaction_trace h table target props) (reaction_world h f props w) (Normal tt).
Proof.
  intros Hcb Hf Hcw.
  unfold dispatch, reaction_trace, reaction_world. rewrite bind_get.
  destruct (is_str "contentSize" (field props "messageType")).
  { rewrite bind_get. unfold _resizeIframe, the_iframe. rewrite Hf.
    destruct (negb (truthy (field props "height")) || isNaN h (field props "height"));
      [reflexivity|].
    rewrite bind_ret. unfold set_style_height.
    destruct (css_height h (ToString h (field props "height") ++ "px"));
      reflexivity. }
  cbv [andb].
  destruct (is_str "pageLoaded" (field props "messageType")).
  { unfold the_iframe. rewrite Hf, bind_ret, bind_read, Hcw.
    unfold postMessage. change (cloneable originProof) with true. cbv iota.
    rewrite bind_emit.
    rewrite (notify_run h this pageLoaded props "page" w Hcb). reflexivity. }
  destruct (is_str "documentAttributes" (field props "messageType")).
  { unfold callback, guarded_trace. rewrite Hcb, bind_ret.
    destruct (truthy (table documentAttributes)); [|reflexivity].
    unfold logged, try_catch. rewrite bind_get.
    apply (logged_invoke h documentAttributes (table documentAttributes)). }
  destruct (is_str "jsonToParent" (field props "messageType"));
    [now apply notify_run|].
  destruct (is_str "documentDelivery" (field props "messageType"));
    [now apply notify_run|].
  destruct (is_str "documentFilesAutoDownloaded" (field props "messageType"));
    [now apply notify_run|].
  destruct (is_str "certifiedSenderPhoto" (field props "messageType"));
    [now apply notify_run|].
  destruct (is_str "createdDocument" (field props "messageType")).
  { unfold callback, guarded_trace. rewrite Hcb, bind_ret.
    destruct (truthy (table createdDocument)); [|reflexivity].
    rewrite !bind_get. apply logged_invoke. }
  destruct (is_str "createdBiolink" (field props "messageType")).
  { unfold callback, guarded_trace. rewrite Hcb, bind_ret.
    destruct (truthy (table createdBiolink)); [|reflexivity].
    rewrite !bind_get. apply logged_invoke. }
  destruct (is_str "error" (field props "messageType"));
    [now apply handle_error_run|].
  reflexivity.
Qed.

(** An accepted message always runs to completion, and its whole effect
    is given by the two summaries. *)
Lemma handleMessage_run (h : Host) (this : Controller) (table : CallbackTable)
      (w : World) (event : MessageEvent) :
  accepted h this w event = true ->
  callbacks this = Some table ->
  exists f target props,
    iframe this = Some f /\ source event = Some target /\
    contentWindow h f w = Some target /\ data event = JObj props /\
    _handleMessage h this event w
    = mkRun (reaction_trace h table target props) (reaction_world h f props w) (Normal tt).
Proof.
  intros Hacc Hcb.
  destruct (accepted_inv _ _ _ _ Hacc) as (f & target & props & Hf & Hsrc & Hcw & Hd & _).
  exists f, target, props. repeat split; auto.
  rewrite (handleMessage_accepted _ _ _ _ Hacc Hd).
  now apply dispatch_run.
Qed.

(** ** Claims about the dispatch of accepted messages *)

Lemma is_str_false (s : string) (v : JsValue) : v <> JStr s -> is_str s v = false.
Proof.
  intros Hne. destruct v; try reflexivity. simpl.
  apply String.eqb_neq. congruence.
Qed.

Lemma calls_of_invoke (h : Host) (slot : Slot) (g : FnId) (arg : JsValue) :
  filter is_call (invoke_trace h slot (JFun g) arg) = [Call slot g arg].
Proof.
  unfold invoke_trace. destruct (call h g arg); reflexivity.
Qed.

Lemma posts_of_invoke (h : Host) (slot : Slot) (cb arg : JsValue) :
  filter is_post (invoke_trace h slot cb arg) = [].
Proof.
  unfold invoke_trace. destruct cb; try reflexivity.
  destruct (call h f arg); reflexivity.
Qed.

(** C1: for an accepted message whose discriminator is [error]:
    with code [documentNotFound] and a function registered in the
    not-found slot, the only callback invoked is that one, with the error
    message; with that code and nothing in the not-found slot, the
    generic error callback gets the error message; with code
    [biolinkNotCreated] and nothing in its dedicated slot, the generic
    error callback gets the whole payload; with any other code it gets
    the payload's [error] if truthy, else its [message] if truthy, else
    the whole payload.  (A field counts as present when its value is
    truthy, which is what [||] tests.) *)
Theorem C1_error_dispatch (h : Host) (this : Controller) (table : CallbackTable)
        (w : World) (event : MessageEvent) (props : list (string * JsValue)) :
  accepted h this w event = true ->
  callbacks this = Some table ->
  data event = JObj props ->
  field props "messageType" = JStr "error" ->
  let calls := filter is_call (trace (_handleMessage h this event w)) in
  let code := field props "errorCode" in
  (code = JStr "documentNotFound" ->
   forall g, table documentNotFound = JFun g ->
   calls = [Call documentNotFound g (field props "errorMessage")]) /\
  (code = JStr "documentNotFound" ->
   truthy (table documentNotFound) = false ->
   forall g, table error = JFun g ->
   calls = [Call error g (field props "errorMessage")]) /\
  (code = JStr "biolinkNotCreated" ->
   truthy (table biolinkNotCreated) = false ->
   forall g, table error = JFun g ->
   calls = [Call error g (JObj props)]) /\
  (code <> JStr "documentNotFound" ->
   code <> JStr "biolinkNotCreated" ->
   forall g, table error = JFun g ->
   calls = [Call error g
                 (if truthy (field props "error") then field props "error"
                  else if truthy (field props "message") then field props "message"
                  else JObj props)]).
Proof.
  intros Hacc Hcb Hdata Hmt. cbv zeta.
  destruct (@handleMessage_run _ _ _ _ _ Hacc Hcb)
    as (f & target & props' & Hf & Hsrc & Hcw & Hd & Hrun).
  rewrite Hdata in Hd. injection Hd as <-.
  rewrite Hrun. cbv [trace].
  unfold reaction_trace. rewrite Hmt.
  cbv [is_str String.eqb Ascii.eqb Bool.eqb].
  unfold error_trace, guarded_trace.
  repeat match goal with |- _ /\ _ => split end.
  - intros Hc g Hg. rewrite Hc, Hg. simpl. apply calls_of_invoke.
  - intros Hc Hnone g Hg. rewrite Hc, Hnone, Hg. simpl. apply calls_of_invoke.
  - intros Hc Hnone g Hg. rewrite Hc, Hnone, Hg. simpl. apply calls_of_invoke.
  - intros Hn1 Hn2 g Hg.
    rewrite (@is_str_false _ _ Hn1), (@is_str_false _ _ Hn2), Hg. simpl truthy. cbv iota.
    rewrite calls_of_invoke. unfold js_or.
    destruct (truthy (field props "error")) eqn:He.
    + now rewrite He.
    + reflexivity.
Qed.

Lemma demo_controller_eq :
  demo_controller
  = mkController (Some 1) (Some demo_upload) (Some (make_callbacks demo_upload)) (Some 10) 11.
Proof. reflexivity. Qed.

Lemma C1_error_dispatch_witness :
  let props := [("source", JStr "biolock"); ("messageType", JStr "error");
                ("errorCode", JStr "quota"); ("message", JStr "too large")] in
  let event := mkEvent (Some 110) (JObj props) in
  let calls := filter is_call (trace (_handleMessage demo_host demo_controller event demo_mounted)) in
  accepted demo_host demo_controller demo_mounted event = true /\
  callbacks demo_controller = Some (make_callbacks demo_upload) /\
  field props "messageType" = JStr "error" /\
  calls = [Call error 9 (JStr "too large")].
Proof.
  cbv zeta.
  split; [reflexivity|]. split; [reflexivity|]. split; [reflexivity|].
  refine (proj2 (proj2 (proj2
    (@C1_error_dispatch demo_host demo_controller (make_callbacks demo_upload) demo_mounted
       (mkEvent (Some 110) (JObj [("source", JStr "biolock"); ("messageType", JStr "error");
                                  ("errorCode", JStr "quota"); ("message", JStr "too large")]))
       _ eq_refl eq_refl eq_refl eq_refl))) _ _ 9 eq_refl); discriminate.
Defined.

(** C7: an accepted [pageLoaded] message makes the handler post the
    origin-proof message to the frame's window, once and first; if a
    function is registered in the page-loaded slot it is then called
    exactly once, with the message's page name; with nothing registered
    the post is the only effect. *)
Theorem C7_page_loaded (h : Host) (this : Controller) (table : CallbackTable)
        (w : World) (event : MessageEvent) (props : list (string * JsValue)) :
  accepted h this w event = true ->
  callbacks this = Some table ->
  data event = JObj props ->
  field props "messageType" = JStr "pageLoaded" ->
  exists (f : NodeId) (target : WindowId) (rest : list Event),
    iframe this = Some f /\
    contentWindow h f w = Some target /\
    trace (_handleMessage h this event w)
    = PostMessage target (JObj [("source", JStr "parent");
                                ("messageType", JStr "originProof")]) "*" :: rest /\
    filter is_post rest = [] /\
    (forall g, table pageLoaded = JFun g ->
               filter is_call rest = [Call pageLoaded g (field props "page")]) /\
    (truthy (table pageLoaded) = false -> rest = []).
Proof.
  intros Hacc Hcb Hdata Hmt.
  destruct (@handleMessage_run _ _ _ _ _ Hacc Hcb)
    as (f & target & props' & Hf & Hsrc & Hcw & Hd & Hrun).
  rewrite Hdata in Hd. injection Hd as <-.
  exists f, target, (guarded_trace h pageLoaded (table pageLoaded) (field props "page")).
  split; [exact Hf|]. split; [exact Hcw|]. split.
  { rewrite Hrun. cbv [trace]. unfold reaction_trace. rewrite Hmt. reflexivity. }
  unfold guarded_trace. repeat match goal with |- _ /\ _ => split end.
  - destruct (truthy (table pageLoaded)); [apply posts_of_invoke | reflexivity].
  - intros g Hg. rewrite Hg. simpl. apply calls_of_invoke.
  - intros ->. reflexivity.
Qed.

Lemma C7_page_loaded_witness :
  let event := mkEvent (Some 110) demo_loaded in
  accepted demo_host demo_controller demo_mounted event = true /\
  callbacks demo_controller = Some (make_callbacks demo_upload) /\
  exists (f : NodeId) (target : WindowId) (rest : list Event),
    iframe demo_controller = Some f /\
    contentWindow demo_host f demo_mounted = Some target /\
    trace (_handleMessage demo_host demo_controller event demo_mounted)
    = PostMessage target (JObj [("source", JStr "parent");
                                ("messageType", JStr "originProof")]) "*" :: rest /\
    filter is_post rest = [] /\
    (forall g, make_callbacks demo_upload pageLoaded = JFun g ->
               filter is_call rest = [Call pageLoaded g (JStr "upload")]) /\
    (truthy (make_callbacks demo_upload pageLoaded) = false -> rest = []).
Proof.
  cbv zeta. split; [reflexivity|]. split; [reflexivity|].
  exact (@C7_page_loaded demo_host demo_controller (make_callbacks demo_upload) demo_mounted
           (mkEvent (Some 110) demo_loaded)
           [("source", JStr "biolock"); ("messageType", JStr "pageLoaded");
            ("page", JStr "upload")]
           eq_refl eq_refl eq_refl eq_refl).
Defined.

(** The controller built from [demo_download] has both a not-found and a
    generic error callback (functions 4 and 5); the one built from
    [demo_upload] has only the generic one (function 9, which throws). *)
Example error_dispatch_examples :
  let this := mkController (Some 1) (Some demo_download)
                           (Some (make_callbacks demo_download)) (Some 10) 11 in
  let not_found := [("source", JStr "biolock"); ("messageType", JStr "error");
                    ("errorCode", JStr "documentNotFound");
                    ("errorMessage", JStr "no such document")] in
  let not_created := [("source", JStr "biolock"); ("messageType", JStr "error");
                      ("errorCode", JStr "biolinkNotCreated");
                      ("errorMessage", JStr "refused")] in
  trace (_handleMessage demo_host this (mkEvent (Some 110) (JObj not_found)) demo_mounted)
  = [Call documentNotFound 4 (JStr "no such document")] /\
  trace (_handleMessage demo_host demo_controller (mkEvent (Some 110) (JObj not_found))
                        demo_mounted)
  = [Call error 9 (JStr "no such document"); ConsoleError [LExn (ExnValue (JStr "boom"))]] /\
  trace (_handleMessage demo_host this (mkEvent (Some 110) (JObj not_created)) demo_mounted)
  = [Call error 5 (JObj not_created)].
Proof. cbv zeta. repeat split. Qed.

(** The two content-size examples of the specification: a height of 450
    is written as [450px], a height of [abc] changes nothing. *)
Example content_size_examples :
  let report v := mkEvent (Some 110)
                          (JObj [("source", JStr "biolock");
                                 ("messageType", JStr "contentSize"); ("height", v)]) in
  height (frames (world (_handleMessage demo_host demo_controller (report (JNum 450))
                                        demo_mounted)) 10) = Some "450px" /\
  world (_handleMessage demo_host demo_controller (report (JStr "abc")) demo_mounted)
  = demo_mounted.
Proof. cbv zeta. split; reflexivity. Qed.

(** ** Exceptions thrown by user callbacks *)

Lemma invoke_trace_throw (h : Host) (slot slot' : Slot) (cb arg arg' : JsValue)
      (g : FnId) (e : Exn) :
  In (Call slot' g arg') (invoke_trace h slot cb arg) ->
  call h g arg' = CbThrow e ->
  invoke_trace h slot cb arg = [Call slot' g arg'; ConsoleError [LExn e]].
Proof.
  unfold invoke_trace. destruct cb; simpl; try (intros [H|[]]; discriminate H).
  intros Hin Hthrow.
  assert (Heq : Call slot f arg = Call slot' g arg').
  { destruct Hin as [H|Hin]; [exact H|].
    destruct (call h f arg); simpl in Hin;
      [contradiction | destruct Hin as [H|[]]; discriminate H]. }
  injection Heq as -> -> ->. now rewrite Hthrow.
Qed.

(** Every trace of the switch is a call-free prefix followed by at most
    one guarded call. *)
Lemma reaction_trace_shape (h : Host) (table : CallbackTable) (target : WindowId)
      (props : list (string * JsValue)) :
  exists before tail,
    reaction_trace h table target props = before ++ tail /\
    (forall e, In e before -> is_call e = false) /\
    (tail = [] \/ exists slot cb arg, tail = invoke_trace h slot cb arg).
Proof.
  assert (Hg : forall slot cb arg,
             exists before tail,
               guarded_trace h slot cb arg = before ++ tail /\
               (forall e, In e before -> is_call e = false) /\
               (tail = [] \/ exists slot cb arg, tail = invoke_trace h slot cb arg)).
  { intros slot cb arg. exists [], (guarded_trace h slot cb arg).
    split; [reflexivity|]. split; [intros e []|].
    unfold guarded_trace. destruct (truthy cb); [right; eauto | now left]. }
  assert (Hi : forall slot cb arg,
             exists before tail,
               invoke_trace h slot cb arg = before ++ tail /\
               (forall e, In e before -> is_call e = false) /\
               (tail = [] \/ exists slot cb arg, tail = invoke_trace h slot cb arg)).
  { intros slot cb arg. exists [], (invoke_trace h slot cb arg).
    split; [reflexivity|]. split; [intros e []|]. right; eauto. }
  unfold reaction_trace.
  destruct (is_str "contentSize" (field props "messageType")).
  { exists [], []. split; [reflexivity|]. split; [intros e []|now left]. }
  destruct (is_str "pageLoaded" (field props "messageType")).
  { exists [PostMessage target originProof "*"],
           (guarded_trace h pageLoaded (table pageLoaded) (field props "page")).
    split; [reflexivity|]. split.
    - intros e [<-|[]]. reflexivity.
    - unfold guarded_trace. destruct (truthy (table pageLoaded)); [right; eauto | now left]. }
  repeat match goal with
         | |- context [if is_str ?s ?v then _ else _] =>
             destruct (is_str s v); [try apply Hg|]
         end.
  - unfold error_trace.
    repeat match goal with
           | |- context [if ?b then _ else _] => destruct b
           end; auto.
  - eexists [_], []. split; [reflexivity|]. split; [|now left].
    intros e [<-|[]]. reflexivity.
Qed.

Lemma ToString_with_call (h : Host) (c : FnId -> JsValue -> CbOutcome) (v : JsValue) :
  ToString (with_call h c) v = ToString h v.
Proof. destruct v; reflexivity. Qed.

Lemma isNaN_with_call (h : Host) (c : FnId -> JsValue -> CbOutcome) (v : JsValue) :
  isNaN (with_call h c) v = isNaN h v.
Proof. destruct v; reflexivity. Qed.

Lemma reaction_world_with_call (h : Host) (c : FnId -> JsValue -> CbOutcome)
      (f : NodeId) (props : list (string * JsValue)) (w : World) :
  reaction_world (with_call h c) f props w = reaction_world h f props w.
Proof.
  unfold reaction_world. now rewrite isNaN_with_call, ToString_with_call.
Qed.

(** C8: on an accepted message the handler always completes normally,
    whatever the user functions do; when the callback it called throws,
    the trace ends with that call followed by the console error carrying
    the exception; and the world after the handler is the one reached
    with any other behaviour of the user functions, so a later message is
    handled the same way. *)
Theorem C8_callback_exceptions_contained (h : Host) (this : Controller)
        (table : CallbackTable) (w : World) (event : MessageEvent) :
  accepted h this w event = true ->
  callbacks this = Some table ->
  let r := _handleMessage h this event w in
  completion r = Normal tt /\
  (forall slot g arg e,
      In (Call slot g arg) (trace r) ->
      call h g arg = CbThrow e ->
      exists before,
        trace r = before ++ [Call slot g arg; ConsoleError [LExn e]] /\
        (forall ev, In ev before -> is_call ev = false)) /\
  (forall others, world r = world (_handleMessage (with_call h others) this event w)) /\
  (forall others next,
      _handleMessage h this next (world r)
      = _handleMessage h this next
                       (world (_handleMessage (with_call h others) this event w))).
Proof.
  intros Hacc Hcb. cbv zeta.
  destruct (@handleMessage_run _ _ _ _ _ Hacc Hcb)
    as (f & target & props & Hf & Hsrc & Hcw & Hd & Hrun).
  assert (Hworld : forall others,
             world (_handleMessage h this event w)
             = world (_handleMessage (with_call h others) this event w)).
  { intros others.
    assert (Hacc' : accepted (with_call h others) this w event = true) by exact Hacc.
    destruct (@handleMessage_run _ _ _ _ _ Hacc' Hcb)
      as (f' & target' & props' & Hf' & _ & _ & Hd' & Hrun').
    rewrite Hrun, Hrun'. cbv [world].
    rewrite Hd in Hd'. injection Hd' as <-.
    rewrite Hf in Hf'. injection Hf' as <-.
    now rewrite reaction_world_with_call. }
  split; [now rewrite Hrun|]. split; [|split].
  - intros slot g arg e Hin Hthrow. rewrite Hrun in *. cbv [trace] in *.
    destruct (reaction_trace_shape h table target props)
      as (before & tail & Heq & Hbefore & Htail).
    rewrite Heq in *. exists before. split; [|exact Hbefore].
    f_equal. apply in_app_or in Hin. destruct Hin as [Hin|Hin].
    + apply Hbefore in Hin. discriminate Hin.
    + destruct Htail as [->|(slot0 & cb & arg0 & ->)]; [contradiction|].
      now apply invoke_trace_throw.
  - exact Hworld.
  - intros others next. now rewrite <- Hworld.
Qed.

Lemma C8_callback_exceptions_contained_witness :
  let event := mkEvent (Some 110)
                       (JObj [("source", JStr "biolock"); ("messageType", JStr "error");
                              ("error", JStr "denied")]) in
  let r := _handleMessage demo_host demo_controller event demo_mounted in
  accepted demo_host demo_controller demo_mounted event = true /\
  callbacks demo_controller = Some (make_callbacks demo_upload) /\
  call demo_host 9 (JStr "denied") = CbThrow (ExnValue (JStr "boom")) /\
  trace r = [Call error 9 (JStr "denied"); ConsoleError [LExn (ExnValue (JStr "boom"))]] /\
  completion r = Normal tt.
Proof.
  cbv zeta. split; [reflexivity|]. split; [reflexivity|]. split; [reflexivity|].
  split; [reflexivity|].
  exact (proj1 (@C8_callback_exceptions_contained demo_host demo_controller
                  (make_callbacks demo_upload) demo_mounted
                  (mkEvent (Some 110)
                           (JObj [("source", JStr "biolock"); ("messageType", JStr "error");
                                  ("error", JStr "denied")]))
                  eq_refl eq_refl)).
Defined.

(** ** Messages that fail the filter *)

(** A message that is not accepted has no effect at all: no event in the
    trace (no callback, no post, no console output) and the same world. *)
Lemma rejected_no_effects (h : Host) (this : Controller) (w : World) (event : MessageEvent) :
  accepted h this w event = false ->
  trace (_handleMessage h this event w) = [] /\
  world (_handleMessage h this event w) = w.
Proof.
  unfold accepted, from_own_frame, tagged, _handleMessage, the_iframe.
  destruct (source event) as [from|]; [|intros _; split; reflexivity].
  destruct (iframe this) as [f|]; [|intros _; split; reflexivity].
  rewrite bind_ret, bind_read.
  destruct (option_nat_eqb (Some from) (contentWindow h f w)); cbv beta iota delta [negb];
    [|intros _; split; reflexivity].
  rewrite andb_true_l.
  destruct (get (data event) "source") as [tag|e] eqn:Hget.
  - unfold lift. rewrite !bind_ret. intros ->. split; reflexivity.
  - intros _. split; reflexivity.
Qed.

(** It returns normally unless the payload is [null] or [undefined]
    (or the instance has already been destroyed). *)
Lemma rejected_returns (h : Host) (this : Controller) (w : World) (event : MessageEvent) :
  accepted h this w event = false ->
  iframe this <> None ->
  data event <> JNull -> data event <> JUndefined ->
  completion (_handleMessage h this event w) = Normal tt.
Proof.
  unfold accepted, from_own_frame, tagged, _handleMessage, the_iframe.
  intros Hacc Hlive Hnull Hundef.
  destruct (source event) as [from|]; [|reflexivity].
  destruct (iframe this) as [f|]; [|congruence].
  rewrite bind_ret, bind_read.
  destruct (option_nat_eqb (Some from) (contentWindow h f w)); cbv beta iota delta [negb];
    [|reflexivity].
  rewrite andb_true_l in Hacc.
  destruct (data event) as [| |b|n| |s|props|g|e]; try congruence;
    try reflexivity.
  unfold get in *. unfold lift. rewrite bind_ret. now rewrite Hacc.
Qed.

(** C2 at the event whose source is the frame's own window and whose
    payload is [null]: the message is not accepted, yet the handler does
    not return: reading [data.source] raises a TypeError that leaves the
    handler. *)
Theorem C2_null_payload_throws :
  let event := mkEvent (Some 110) JNull in
  from_own_frame demo_host demo_controller demo_mounted event = true /\
  accepted demo_host demo_controller demo_mounted event = false /\
  completion (_handleMessage demo_host demo_controller event demo_mounted)
  = Throw (ExnTypeError "Cannot read properties of null (reading 'source')").
Proof. cbv zeta. repeat split. Qed.

(** X17: a string payload never reaches [JSON.parse]: reading [source]
    on a string gives [undefined], so the provenance test drops the
    message first, whatever the text is and wherever it comes from: no
    event, no change, and a normal return while the instance has its
    frame. *)
Lemma string_payload_dropped (h : Host) (this : Controller) (w : World)
      (from : option WindowId) (text : string) :
  trace (_handleMessage h this (mkEvent from (JStr text)) w) = [] /\
  world (_handleMessage h this (mkEvent from (JStr text)) w) = w /\
  (iframe this <> None ->
   completion (_handleMessage h this (mkEvent from (JStr text)) w) = Normal tt).
Proof.
  assert (Hrej : accepted h this w (mkEvent from (JStr text)) = false).
  { unfold accepted, tagged. simpl. apply andb_false_r. }
  destruct (rejected_no_effects h this w _ Hrej) as [Ht Hw].
  split; [exact Ht|]. split; [exact Hw|].
  intros Hlive. apply rejected_returns; try assumption; discriminate.
Qed.

(** C3 at a page-loaded message sent as JSON text from the frame's own
    window: [JSON.parse] would read it as the record [demo_loaded], and
    that record is dispatched when sent as an object, but the text is
    dropped: nothing is posted and the page-loaded callback is not
    called. *)
Theorem C3_json_text_dropped :
  let as_text := mkEvent (Some 110) (JStr demo_loaded_text) in
  let as_object := mkEvent (Some 110) demo_loaded in
  JSON_parse demo_host demo_loaded_text = inl demo_loaded /\
  trace (_handleMessage demo_host demo_controller as_object demo_mounted)
  = [PostMessage 110 originProof "*"; Call pageLoaded 3 (JStr "upload")] /\
  trace (_handleMessage demo_host demo_controller as_text demo_mounted) = [] /\
  completion (_handleMessage demo_host demo_controller as_text demo_mounted) = Normal tt.
Proof. cbv zeta. repeat split. Qed.

(** ** Construction *)

(** C4, as stated, at a configuration whose page selector [settings] is
    not a recognized value: construction does not fail.  It returns an
    instance, logs the unknown page, and mounts frame 10 in the anchor in
    place of the earlier child. *)
Lemma C4_counterexample :
  let arg := JObj [("container", JStr "#biolock-container"); ("page", JStr "settings")] in
  let r := constructor demo_host arg demo_world in
  (exists this, completion r = Normal this /\ iframe this = Some 10) /\
  parentNode demo_world 10 = None /\
  parentNode (world r) 10 = Some 1 /\
  parentNode demo_world 2 = Some 1 /\
  parentNode (world r) 2 = None /\
  src (frames (world r) 10)
  = "https://biolock.ai/?display_mode=reduced&container=%23biolock-container&page=settings".
Proof.
  cbv zeta. split; [eexists; split; reflexivity|]. repeat split.
Qed.

(** C4 (amended): when the argument is not a configuration object, or its
    [container] is missing (falsy), or its [page] is missing (falsy), or
    the container resolves to no element (a selector the document does not
    match or cannot parse, or a value that is neither a string nor an
    element), construction throws and mounts nothing: the world, with the
    anchor's children, the frames and the listeners, is unchanged and
    nothing is logged.  (An unrecognized page selector is not such a
    case.) *)
Ltac c4_close :=
  split; [reflexivity|];
  split; [first [left; reflexivity | right; left; reflexivity | right; right; eauto]|];
  split; reflexivity.

Theorem C4_construction_fails (h : Host) (arg : JsValue) (w : World) :
  (forall opts, arg = JObj opts ->
     truthy (field opts "container") = false \/
     truthy (field opts "page") = false \/
     anchor_of h (field opts "container") = None) ->
  exists e : Exn,
    completion (constructor h arg w) = Throw e /\
    (e = ExnError required_message \/ e = ExnError not_found_message \/
     exists m, e = ExnSyntaxError m) /\
    world (constructor h arg w) = w /\
    trace (constructor h arg w) = [].
Proof.
  intros Hbad. unfold constructor.
  destruct arg as [| |b|n| |s|opts|f|e];
    try (eexists; c4_close).
  specialize (Hbad opts eq_refl).
  destruct (truthy (field opts "container")) eqn:Hc;
    [|eexists; c4_close].
  destruct (truthy (field opts "page")) eqn:Hp;
    [|eexists; c4_close].
  cbv beta iota delta [negb orb].
  destruct Hbad as [Hbad|[Hbad|Hbad]]; try discriminate.
  unfold resolve_container. unfold anchor_of in Hbad.
  destruct (field opts "container") as [| |b|n| |sel|props|f|e];
    cbv beta iota in *; try discriminate;
    try (rewrite bind_ret; eexists; c4_close).
  - destruct (querySelector h sel) as [e| |m]; try discriminate.
    + rewrite bind_ret. eexists; c4_close.
    + eexists; c4_close.
  - destruct (instanceof_HTMLElement h e); [discriminate Hbad|].
    rewrite bind_ret. eexists; c4_close.
Qed.

Lemma C4_construction_fails_witness :
  let arg := JObj [("container", JStr "#missing"); ("page", JStr "upload")] in
  (forall opts, arg = JObj opts ->
     truthy (field opts "container") = false \/
     truthy (field opts "page") = false \/
     anchor_of demo_host (field opts "container") = None) /\
  exists e : Exn,
    completion (constructor demo_host arg demo_world) = Throw e /\
    (e = ExnError required_message \/ e = ExnError not_found_message \/
     exists m, e = ExnSyntaxError m) /\
    world (constructor demo_host arg demo_world) = demo_world /\
    trace (constructor demo_host arg demo_world) = [].
Proof.
  cbv zeta.
  assert (Hbad : forall opts,
             JObj [("container", JStr "#missing"); ("page", JStr "upload")] = JObj opts ->
             truthy (field opts "container") = false \/
             truthy (field opts "page") = false \/
             anchor_of demo_host (field opts "container") = None).
  { intros opts Heq. injection Heq as <-. right. right. reflexivity. }
  split; [exact Hbad|].
  exact (@C4_construction_fails demo_host _ demo_world Hbad).
Defined.

(** A configuration with a truthy [page] and an anchor that resolves
    mounts exactly one frame in the anchor, in place of its earlier
    children, hidden, and registers one listener. *)
Lemma constructor_mounts (h : Host) (opts : Config) (w : World) (anchor : NodeId) :
  truthy (field opts "container") = true ->
  truthy (field opts "page") = true ->
  anchor_of h (field opts "container") = Some anchor ->
  exists this : Controller,
    let r := constructor h (JObj opts) w in
    let f := next_id w in
    completion r = Normal this /\
    containerElement this = Some anchor /\ iframe this = Some f /\
    options this = Some opts /\ callbacks this = Some (make_callbacks opts) /\
    (forall n, parentNode (world r) n = Some anchor <-> n = f) /\
    display (frames (world r) f) = Some "none" /\
    Normal (src (frames (world r) f)) = completion (_buildIframeUrl h opts w) /\
    bound_handleMessage this = S f /\
    listeners (world r) = listeners w ++ [S f].
Proof.
  intros Hc Hp Ha.
  assert (Hres : forall w0, resolve_container h (field opts "container") w0
                            = mkRun [] w0 (Normal (Some anchor))).
  { intros w0. unfold resolve_container. unfold anchor_of in Ha.
    destruct (field opts "container") as [| |b|n| |sel|props|g|e]; try discriminate.
    - destruct (querySelector h sel); try discriminate. now injection Ha as ->.
    - destruct (instanceof_HTMLElement h e); [|discriminate]. now injection Ha as ->. }
  unfold constructor. rewrite Hc, Hp. cbv beta iota delta [negb orb].
  rewrite (@bind_run _ _ _ _ _ _ _ _ (Hres w)), prefixed_nil. cbv beta iota.
  rewrite (@bind_run _ _ _ _ _ _ _ _
             (eq_refl : createElement_iframe w = mkRun [] _ (Normal (next_id w)))),
    prefixed_nil.
  rewrite (@bind_run _ _ _ _ _ _ _ _ (buildIframeUrl_run h opts _)).
  rewrite buildIframeUrl_run. cbv [completion].
  set (url := (resolved_origin h ++ _)%string).
  unfold set_frame, clear_children, appendChild.
  rewrite !bind_modify.
  cbn [next_id parentNode frames listeners].
  rewrite (@bind_run _ _ _ _ _ _ _ _
             (eq_refl : addEventListener_bound _ = mkRun [] _ (Normal _))),
    prefixed_nil.
  cbn [next_id parentNode frames listeners].
  unfold ret, prefixed. cbn [trace world completion].
  eexists. cbv zeta.
  split; [reflexivity|].
  cbn [containerElement iframe options callbacks bound_handleMessage
       next_id parentNode frames listeners].
  repeat match goal with |- _ /\ _ => split end; try reflexivity.
  - intros n. unfold update. split.
    + destruct (Nat.eqb_spec n (next_id w)) as [->|Hne]; [reflexivity|].
      destruct (parentNode w n) as [p|]; [|discriminate].
      destruct (Nat.eqb_spec p anchor) as [->|Hpa]; [discriminate|].
      intros [= ->]. congruence.
    + intros ->. now rewrite Nat.eqb_refl.
  - unfold update. now rewrite Nat.eqb_refl.
  - unfold update. now rewrite Nat.eqb_refl.
Qed.

(** The frame stays hidden until its load handler runs. *)
Example frame_shown_on_load :
  display (frames demo_mounted 10) = Some "none" /\
  display (frames (world (iframe_onload 10 demo_mounted)) 10) = Some "block".
Proof. split; reflexivity. Qed.

(** The errors behind C4: a missing option gives the "required" error,
    an unmatched selector the "not found" one. *)
Example construction_errors :
  completion (constructor demo_host (JObj [("container", JStr "#biolock-container")]) demo_world)
  = Throw (ExnError required_message) /\
  completion (constructor demo_host JUndefined demo_world)
  = Throw (ExnError required_message) /\
  completion (constructor demo_host
                          (JObj [("container", JStr "#missing"); ("page", JStr "upload")])
                          demo_world)
  = Throw (ExnError not_found_message).
Proof. repeat split. Qed.

(** ** Teardown *)

Lemma removed_not_in (l : ListenerId) (ls : list ListenerId) :
  ~ In l (filter (fun l' => negb (Nat.eqb l' l)) ls).
Proof.
  intros Hin. apply filter_In in Hin. destruct Hin as [_ Hne].
  rewrite Nat.eqb_refl in Hne. discriminate.
Qed.

Lemma destroy_run (this : Controller) (w : World) :
  destroy this w
  = mkRun []
          (mkWorld (next_id w)
                   (match iframe this with
                    | Some f => match parentNode w f with
                                | Some _ => update (parentNode w) f None
                                | None => parentNode w
                                end
                    | None => parentNode w
                    end)
                   (frames w)
                   (filter (fun l' => negb (Nat.eqb l' (bound_handleMessage this)))
                           (listeners w)))
          (Normal (mkController None None None None (bound_handleMessage this))).
Proof.
  unfold destroy, removeEventListener, removeChild, bind, modify, read, ret. simpl.
  destruct (iframe this) as [f|]; simpl; [|reflexivity].
  destruct (parentNode w f); reflexivity.
Qed.

(** C9: after [destroy()] the instance's listener is no longer
    registered, so a message event delivered afterwards runs nothing (no
    callback, no post, no state change); the frame has no parent, so no
    anchor contains it; the four instance fields are null; and both
    outbound senders return without posting anything. *)
Theorem C9_destroy (h : Host) (this : Controller) (w : World) :
  let r := destroy this w in
  exists this' : Controller,
    completion r = Normal this' /\
    ~ In (bound_handleMessage this) (listeners (world r)) /\
    (forall event, deliver h this' event (world r) = mkRun [] (world r) (Normal tt)) /\
    (forall f, iframe this = Some f -> parentNode (world r) f = None) /\
    iframe this' = None /\ options this' = None /\
    callbacks this' = None /\ containerElement this' = None /\
    (forall json w', addJsonToDocument h this' json w' = mkRun [] w' (Normal tt)) /\
    (forall files w', setSenderPhotosFiles h this' files w' = mkRun [] w' (Normal tt)).
Proof.
  cbv zeta. rewrite destroy_run. cbv [completion world].
  eexists. split; [reflexivity|].
  split; [simpl; apply removed_not_in|].
  split.
  { intros event. unfold deliver. simpl.
    destruct (existsb (Nat.eqb (bound_handleMessage this))
                      (filter (fun l' => negb (Nat.eqb l' (bound_handleMessage this)))
                              (listeners w))) eqn:Hex; [|reflexivity].
    exfalso. apply existsb_exists in Hex. destruct Hex as (l & Hin & Heq).
    apply Nat.eqb_eq in Heq. subst l.
    exact (removed_not_in _ _ Hin). }
  split.
  { intros f Hf. rewrite Hf. simpl.
    destruct (parentNode w f) eqn:Hp; [|exact Hp].
    unfold update. now rewrite Nat.eqb_refl. }
  repeat split.
Qed.

(** The instance built in the example, destroyed, then sent a message
    from the frame's former window. *)
Example destroy_example :
  let r := destroy demo_controller demo_mounted in
  let after := match completion r with Normal c => c | Throw _ => demo_controller end in
  In 11 (listeners demo_mounted) /\
  parentNode demo_mounted 10 = Some 1 /\
  listeners (world r) = [] /\
  parentNode (world r) 10 = None /\
  trace (deliver demo_host after (mkEvent (Some 110) demo_loaded) (world r)) = [] /\
  trace (deliver demo_host demo_controller (mkEvent (Some 110) demo_loaded) demo_mounted)
  = [PostMessage 110 originProof "*"; Call pageLoaded 3 (JStr "upload")] /\
  trace (addJsonToDocument demo_host demo_controller (JStr "x") demo_mounted)
  = [PostMessage 110 (JObj [("source", JStr "parent");
                            ("messageType", JStr "addJsonToDocument");
                            ("json", JStr "x")]) "*"] /\
  trace (addJsonToDocument demo_host after (JStr "x") (world r)) = [].
Proof. cbv zeta. repeat split. now left. Qed.

(* ================================================================== *)
(** * Further properties *)
(* ================================================================== *)

(** ** Construction, step by step *)

Lemma resolve_container_run (h : Host) (container : JsValue) (anchor : NodeId) (w : World) :
  anchor_of h container = Some anchor ->
  resolve_container h container w = mkRun [] w (Normal (Some anchor)).
Proof.
  unfold resolve_container, anchor_of.
  destruct container as [| |b|n| |sel|props|g|e]; try discriminate.
  - destruct (querySelector h sel); try discriminate. now intros [= ->].
  - destruct (instanceof_HTMLElement h e); [|discriminate]. now intros [= ->].
Qed.

Lemma constructor_run (h : Host) (opts : Config) (w : World) (anchor : NodeId) :
  truthy (field opts "container") = true ->
  truthy (field opts "page") = true ->
  anchor_of h (field opts "container") = Some anchor ->
  constructor h (JObj opts) w
  = mkRun (page_log h (field opts "page")) (mounted_world h opts anchor w)
          (Normal (mounted_controller opts anchor w)).
Proof.
  intros Hc Hp Ha.
  unfold constructor. rewrite Hc, Hp. cbv beta iota delta [negb orb].
  rewrite (@bind_run _ _ _ _ _ _ _ _ (resolve_container_run h _ w Ha)), prefixed_nil.
  cbv beta iota.
  rewrite (@bind_run _ _ _ _ _ _ _ _
             (eq_refl : createElement_iframe w = mkRun [] _ (Normal (next_id w)))),
    prefixed_nil.
  rewrite (@bind_run _ _ _ _ _ _ _ _ (buildIframeUrl_run h opts _)).
  fold (built_url h opts).
  unfold set_frame, clear_children, appendChild.
  rewrite !bind_modify.
  cbn [next_id parentNode frames listeners].
  rewrite (@bind_run _ _ _ _ _ _ _ _
             (eq_refl : addEventListener_bound _ = mkRun [] _ (Normal _))),
    prefixed_nil.
  cbn [next_id parentNode frames listeners].
  unfold ret, prefixed. cbn [trace world completion].
  rewrite app_nil_r. reflexivity.
Qed.

Lemma mounted_parent (h : Host) (opts : Config) (anchor : NodeId) (w : World) (n : NodeId) :
  parentNode (mounted_world h opts anchor w) n
  = if Nat.eqb n (next_id w) then Some anchor
    else match parentNode w n with
         | Some p => if Nat.eqb p anchor then None else Some p
         | None => None
         end.
Proof.
  unfold mounted_world. cbn [parentNode]. unfold update.
  destruct (Nat.eqb n (next_id w)); reflexivity.
Qed.

Lemma mounted_contentWindow (h : Host) (opts : Config) (anchor : NodeId) (w : World) :
  contentWindow h (next_id w) (mounted_world h opts anchor w)
  = browsing_context h (next_id w).
Proof.
  unfold contentWindow. rewrite mounted_parent, Nat.eqb_refl. reflexivity.
Qed.

(** ** The constructor *)

(** X1: a configuration with a truthy [page] and a truthy [container]
    that resolves to an anchor (a selector string that [querySelector]
    matches, or an element that is an [HTMLElement]; any other container
    resolves to nothing) constructs an instance.  The new frame is
    the only child of the anchor afterwards; nodes elsewhere in the tree
    keep their parent; the frame carries the built URL, the configured
    style text, [allow="camera"], the two attributes and [display: none];
    other frames are untouched; the instance's listener is added after
    the existing ones; and the only console output is the URL builder's. *)
Theorem construction_mounts_single_frame (h : Host) (opts : Config) (w : World)
        (anchor : NodeId) :
  truthy (field opts "container") = true ->
  truthy (field opts "page") = true ->
  anchor_of h (field opts "container") = Some anchor ->
  exists (this : Controller) (w' : World),
    constructor h (JObj opts) w
    = mkRun (trace (_buildIframeUrl h opts w)) w' (Normal this) /\
    containerElement this = Some anchor /\
    iframe this = Some (next_id w) /\
    options this = Some opts /\
    (forall n, parentNode w' n = Some anchor <-> n = next_id w) /\
    (forall n p, n <> next_id w -> p <> anchor ->
                 (parentNode w' n = Some p <-> parentNode w n = Some p)) /\
    completion (_buildIframeUrl h opts w) = Normal (src (frames w' (next_id w))) /\
    cssText (frames w' (next_id w)) = ToString h (js_or (field opts "style") (JStr "")) /\
    allow (frames w' (next_id w)) = "camera" /\
    attributes (frames w' (next_id w)) = [("allowfullscreen", "true"); ("scrolling", "no")] /\
    display (frames w' (next_id w)) = Some "none" /\
    (forall n, n <> next_id w -> frames w' n = frames w n) /\
    listeners w' = listeners w ++ [bound_handleMessage this].
Proof.
  intros Hc Hp Ha.
  exists (mounted_controller opts anchor w), (mounted_world h opts anchor w).
  split.
  { rewrite (constructor_run h opts w Hc Hp Ha). now rewrite buildIframeUrl_run. }
  repeat match goal with |- _ /\ _ => split end; try reflexivity.
  - intros n. rewrite mounted_parent.
    destruct (Nat.eqb_spec n (next_id w)) as [->|Hne]; [tauto|].
    destruct (parentNode w n) as [p|]; [|split; [discriminate|congruence]].
    destruct (Nat.eqb_spec p anchor) as [->|Hpa]; split; congruence.
  - intros n p Hn Hp'. rewrite mounted_parent.
    destruct (Nat.eqb_spec n (next_id w)) as [->|_]; [congruence|].
    destruct (parentNode w n) as [q|]; [|tauto].
    destruct (Nat.eqb_spec q anchor) as [->|Hqa]; [|tauto].
    split; [discriminate | congruence].
  - rewrite buildIframeUrl_run. unfold mounted_world. cbn [frames completion].
    unfold update. now rewrite Nat.eqb_refl.
  - unfold mounted_world. cbn [frames]. unfold update. now rewrite Nat.eqb_refl.
  - unfold mounted_world. cbn [frames]. unfold update. now rewrite Nat.eqb_refl.
  - unfold mounted_world. cbn [frames]. unfold update. now rewrite Nat.eqb_refl.
  - unfold mounted_world. cbn [frames]. unfold update. now rewrite Nat.eqb_refl.
  - intros n Hn. unfold mounted_world. cbn [frames]. unfold update.
    destruct (Nat.eqb_spec n (next_id w)); [congruence | reflexivity].
Qed.

Lemma construction_mounts_single_frame_witness :
  truthy (field demo_upload "container") = true /\
  truthy (field demo_upload "page") = true /\
  anchor_of demo_host (field demo_upload "container") = Some 1 /\
  exists (this : Controller) (w' : World),
    constructor demo_host (JObj demo_upload) demo_world
    = mkRun (trace (_buildIframeUrl demo_host demo_upload demo_world)) w' (Normal this) /\
    containerElement this = Some 1 /\
    iframe this = Some 10 /\
    (forall n, parentNode w' n = Some 1 <-> n = 10).
Proof.
  split; [reflexivity|]. split; [reflexivity|]. split; [reflexivity|].
  destruct (@construction_mounts_single_frame demo_host demo_upload demo_world 1
              eq_refl eq_refl eq_refl)
    as (this & w' & Hrun & Hce & Hif & _ & Hkids & _).
  exists this, w'. auto.
Defined.

Lemma cloneable_envelope (kind key : string) (payload : JsValue) :
  cloneable (JObj [("source", JStr "parent"); ("messageType", JStr kind); (key, payload)])
  = cloneable payload.
Proof. simpl. now rewrite andb_true_r. Qed.

(** X2: right after construction both outbound senders reach the new
    frame.  For an argument the structured clone accepts (no function
    and no DOM node anywhere in it), each posts exactly one message,
    tagged [source: 'parent'] with its own [messageType] and the
    argument, to the frame's window with target origin [*], changes
    nothing and returns; for an argument that cannot be cloned
    [postMessage] raises [DataCloneError], which leaves the sender, and
    nothing is posted; when the browser gave the frame no window (an
    anchor outside the document) both senders do nothing, whatever the
    argument. *)
Theorem senders_reach_the_mounted_frame (h : Host) (opts : Config) (w : World)
        (anchor : NodeId) (payload : JsValue) :
  truthy (field opts "container") = true ->
  truthy (field opts "page") = true ->
  anchor_of h (field opts "container") = Some anchor ->
  exists (this : Controller) (w' : World),
    completion (constructor h (JObj opts) w) = Normal this /\
    world (constructor h (JObj opts) w) = w' /\
    (forall win, browsing_context h (next_id w) = Some win ->
       cloneable payload = true ->
       addJsonToDocument h this payload w'
       = mkRun [PostMessage win (JObj [("source", JStr "parent");
                                       ("messageType", JStr "addJsonToDocument");
                                       ("json", payload)]) "*"] w' (Normal tt) /\
       setSenderPhotosFiles h this payload w'
       = mkRun [PostMessage win (JObj [("source", JStr "parent");
                                       ("messageType", JStr "setSenderPhotosFiles");
                                       ("photosFiles", payload)]) "*"] w' (Normal tt)) /\
    (forall win, browsing_context h (next_id w) = Some win ->
       cloneable payload = false ->
       (trace (addJsonToDocument h this payload w') = [] /\
        world (addJsonToDocument h this payload w') = w' /\
        exists m, completion (addJsonToDocument h this payload w')
                  = Throw (ExnDataCloneError m)) /\
       (trace (setSenderPhotosFiles h this payload w') = [] /\
        world (setSenderPhotosFiles h this payload w') = w' /\
        exists m, completion (setSenderPhotosFiles h this payload w')
                  = Throw (ExnDataCloneError m))) /\
    (browsing_context h (next_id w) = None ->
       addJsonToDocument h this payload w' = mkRun [] w' (Normal tt) /\
       setSenderPhotosFiles h this payload w' = mkRun [] w' (Normal tt)).
Proof.
  intros Hc Hp Ha.
  exists (mounted_controller opts anchor w), (mounted_world h opts anchor w).
  rewrite (constructor_run h opts w Hc Hp Ha).
  split; [reflexivity|]. split; [reflexivity|].
  unfold addJsonToDocument, setSenderPhotosFiles, send, mounted_controller.
  cbn [iframe]. rewrite !bind_read, mounted_contentWindow.
  split; [|split].
  - intros win -> Hclone. unfold postMessage.
    rewrite !cloneable_envelope, Hclone. split; reflexivity.
  - intros win -> Hclone. unfold postMessage.
    rewrite !cloneable_envelope, Hclone.
    split; (split; [reflexivity|]; split; [reflexivity|]; eexists; reflexivity).
  - intros ->. split; reflexivity.
Qed.

Lemma senders_reach_the_mounted_frame_witness :
  truthy (field demo_upload "container") = true /\
  truthy (field demo_upload "page") = true /\
  anchor_of demo_host (field demo_upload "container") = Some 1 /\
  exists (this : Controller) (w' : World),
    completion (constructor demo_host (JObj demo_upload) demo_world) = Normal this /\
    world (constructor demo_host (JObj demo_upload) demo_world) = w' /\
    trace (addJsonToDocument demo_host this (JStr "x") w')
    = [PostMessage 110 (JObj [("source", JStr "parent");
                              ("messageType", JStr "addJsonToDocument");
                              ("json", JStr "x")]) "*"].
Proof.
  split; [reflexivity|]. split; [reflexivity|]. split; [reflexivity|].
  destruct (@senders_reach_the_mounted_frame demo_host demo_upload demo_world 1 (JStr "x")
              eq_refl eq_refl eq_refl)
    as (this & w' & Hthis & Hw & Hsend & _).
  exists this, w'. split; [exact Hthis|]. split; [exact Hw|].
  destruct (Hsend 110 eq_refl eq_refl) as [Hadd _].
  rewrite Hadd. reflexivity.
Defined.

(** X3: from construction to the first message.  When the configuration
    supplies a function as [onPageLoaded] and the browser gave the new
    frame a window, a [pageLoaded] message tagged [biolock] and delivered
    from that window makes the registered listener post the origin-proof
    message back to it and then call that function with the message's
    page name; if the function throws, the exception is logged, and in
    either case the handler returns and the world is unchanged. *)
Theorem mounted_instance_answers_page_loaded (h : Host) (opts : Config) (w : World)
        (anchor : NodeId) (win : WindowId) (g : FnId) (props : list (string * JsValue)) :
  truthy (field opts "container") = true ->
  truthy (field opts "page") = true ->
  anchor_of h (field opts "container") = Some anchor ->
  browsing_context h (next_id w) = Some win ->
  field opts "onPageLoaded" = JFun g ->
  field props "source" = JStr "biolock" ->
  field props "messageType" = JStr "pageLoaded" ->
  exists (this : Controller) (w' : World),
    completion (constructor h (JObj opts) w) = Normal this /\
    world (constructor h (JObj opts) w) = w' /\
    deliver h this (mkEvent (Some win) (JObj props)) w'
    = mkRun (PostMessage win (JObj [("source", JStr "parent");
                                    ("messageType", JStr "originProof")]) "*"
             :: Call pageLoaded g (field props "page")
             :: match call h g (field props "page") with
                | CbReturn => []
                | CbThrow e => [ConsoleError [LExn e]]
                end)
            w' (Normal tt).
Proof.
  intros Hc Hp Ha Hwin Hg Hsrc Hmt.
  exists (mounted_controller opts anchor w), (mounted_world h opts anchor w).
  rewrite (constructor_run h opts w Hc Hp Ha).
  split; [reflexivity|]. split; [reflexivity|].
  set (this := mounted_controller opts anchor w).
  set (w' := mounted_world h opts anchor w).
  set (event := mkEvent (Some win) (JObj props)).
  assert (Hreg : existsb (Nat.eqb (bound_handleMessage this)) (listeners w') = true).
  { apply existsb_exists. exists (S (next_id w)). split; [|apply Nat.eqb_refl].
    unfold w', mounted_world. cbn [listeners]. apply in_or_app. right. now left. }
  assert (Hcw : contentWindow h (next_id w) w' = Some win).
  { unfold w'. now rewrite mounted_contentWindow. }
  assert (Hacc : accepted h this w' event = true).
  { unfold accepted, from_own_frame, tagged, event, this, mounted_controller.
    cbn [source data iframe]. rewrite Hcw. unfold get. fold (field props "source").
    rewrite Hsrc. simpl. now rewrite Nat.eqb_refl. }
  unfold deliver. rewrite Hreg.
  destruct (@handleMessage_run h this (make_callbacks opts) w' event Hacc eq_refl)
    as (f & target & props' & Hf & Htarget & Hcw' & Hd & Hrun).
  injection Hf as <-. injection Hd as <-. injection Htarget as <-.
  rewrite Hrun. unfold reaction_trace, reaction_world. rewrite Hmt.
  cbn [is_str String.eqb Ascii.eqb Bool.eqb andb].
  unfold guarded_trace, make_callbacks, js_or. rewrite Hg. reflexivity.
Qed.

Lemma mounted_instance_answers_page_loaded_witness :
  truthy (field demo_upload "container") = true /\
  truthy (field demo_upload "page") = true /\
  anchor_of demo_host (field demo_upload "container") = Some 1 /\
  browsing_context demo_host (next_id demo_world) = Some 110 /\
  field demo_upload "onPageLoaded" = JFun 3 /\
  exists (this : Controller) (w' : World),
    completion (constructor demo_host (JObj demo_upload) demo_world) = Normal this /\
    world (constructor demo_host (JObj demo_upload) demo_world) = w' /\
    deliver demo_host this (mkEvent (Some 110) demo_loaded) w'
    = mkRun [PostMessage 110 (JObj [("source", JStr "parent");
                                    ("messageType", JStr "originProof")]) "*";
             Call pageLoaded 3 (JStr "upload")]
            w' (Normal tt).
Proof.
  repeat (split; [reflexivity|]).
  exact (@mounted_instance_answers_page_loaded demo_host demo_upload demo_world 1 110 3
           [("source", JStr "biolock"); ("messageType", JStr "pageLoaded");
            ("page", JStr "upload")]
           eq_refl eq_refl eq_refl eq_refl eq_refl eq_refl eq_refl).
Defined.

(** X4: a second instance built on the same anchor evicts the first
    one's frame.  The first frame has no parent afterwards, so no message
    is accepted by the first instance any more (its handler does nothing
    for every event), and both of its senders post nothing; its listener
    is nevertheless still registered. *)
Theorem second_instance_silences_the_first (h : Host) (opts1 opts2 : Config) (w : World)
        (anchor : NodeId) :
  truthy (field opts1 "container") = true ->
  truthy (field opts1 "page") = true ->
  anchor_of h (field opts1 "container") = Some anchor ->
  truthy (field opts2 "container") = true ->
  truthy (field opts2 "page") = true ->
  anchor_of h (field opts2 "container") = Some anchor ->
  exists (first : Controller) (w1 : World) (second : Controller) (w2 : World),
    completion (constructor h (JObj opts1) w) = Normal first /\
    world (constructor h (JObj opts1) w) = w1 /\
    completion (constructor h (JObj opts2) w1) = Normal second /\
    world (constructor h (JObj opts2) w1) = w2 /\
    iframe first = Some (next_id w) /\
    parentNode w1 (next_id w) = Some anchor /\
    parentNode w2 (next_id w) = None /\
    (forall event,
        accepted h first w2 event = false /\
        trace (_handleMessage h first event w2) = [] /\
        world (_handleMessage h first event w2) = w2) /\
    (forall payload,
        addJsonToDocument h first payload w2 = mkRun [] w2 (Normal tt) /\
        setSenderPhotosFiles h first payload w2 = mkRun [] w2 (Normal tt)) /\
    In (bound_handleMessage first) (listeners w2).
Proof.
  intros Hc1 Hp1 Ha1 Hc2 Hp2 Ha2.
  exists (mounted_controller opts1 anchor w), (mounted_world h opts1 anchor w),
         (mounted_controller opts2 anchor (mounted_world h opts1 anchor w)),
         (mounted_world h opts2 anchor (mounted_world h opts1 anchor w)).
  rewrite (constructor_run h opts1 w Hc1 Hp1 Ha1).
  rewrite (constructor_run h opts2 (mounted_world h opts1 anchor w) Hc2 Hp2 Ha2).
  set (w1 := mounted_world h opts1 anchor w).
  set (w2 := mounted_world h opts2 anchor w1).
  assert (Hp1' : parentNode w1 (next_id w) = Some anchor).
  { unfold w1. now rewrite mounted_parent, Nat.eqb_refl. }
  assert (Hgone : parentNode w2 (next_id w) = None).
  { unfold w2. rewrite mounted_parent. fold w1. rewrite Hp1', Nat.eqb_refl.
    replace (Nat.eqb (next_id w) (next_id w1)) with false; [reflexivity|].
    symmetry. apply Nat.eqb_neq. unfold w1, mounted_world. cbn [next_id]. lia. }
  assert (Hcw : contentWindow h (next_id w) w2 = None).
  { unfold contentWindow. now rewrite Hgone. }
  repeat match goal with |- _ /\ _ => split end; try reflexivity; try assumption.
  - intros event.
    assert (Hrej : accepted h (mounted_controller opts1 anchor w) w2 event = false).
    { unfold accepted, from_own_frame, mounted_controller. cbn [iframe].
      rewrite Hcw. destruct (source event); reflexivity. }
    split; [exact Hrej|]. now apply rejected_no_effects.
  - intros payload. unfold addJsonToDocument, setSenderPhotosFiles, send, mounted_controller.
    cbn [iframe]. rewrite !bind_read, Hcw. split; reflexivity.
  - unfold w2, w1, mounted_world, mounted_controller.
    cbn [listeners bound_handleMessage].
    apply in_or_app. left. apply in_or_app. right. now left.
Qed.

Lemma second_instance_silences_the_first_witness :
  truthy (field demo_upload "container") = true /\
  truthy (field demo_upload "page") = true /\
  anchor_of demo_host (field demo_upload "container") = Some 1 /\
  truthy (field demo_download "container") = true /\
  truthy (field demo_download "page") = true /\
  anchor_of demo_host (field demo_download "container") = Some 1 /\
  exists (first : Controller) (w1 : World) (second : Controller) (w2 : World),
    completion (constructor demo_host (JObj demo_upload) demo_world) = Normal first /\
    world (constructor demo_host (JObj demo_upload) demo_world) = w1 /\
    completion (constructor demo_host (JObj demo_download) w1) = Normal second /\
    world (constructor demo_host (JObj demo_download) w1) = w2 /\
    parentNode w2 10 = None /\
    trace (_handleMessage demo_host first (mkEvent (Some 110) demo_loaded) w2) = [].
Proof.
  repeat (split; [reflexivity|]).
  destruct (@second_instance_silences_the_first demo_host demo_upload demo_download
              demo_world 1 eq_refl eq_refl eq_refl eq_refl eq_refl eq_refl)
    as (first & w1 & second & w2 & H1 & H2 & H3 & H4 & _ & _ & Hgone & Hquiet & _).
  exists first, w1, second, w2.
  split; [exact H1|]. split; [exact H2|]. split; [exact H3|]. split; [exact H4|].
  split; [exact Hgone|].
  exact (proj1 (proj2 (Hquiet (mkEvent (Some 110) demo_loaded)))).
Defined.

(** ** Teardown, continued *)

Lemma filter_twice {A} (p : A -> bool) (l : list A) :
  filter p (filter p l) = filter p l.
Proof.
  induction l as [|x l IH]; simpl; [reflexivity|].
  destruct (p x) eqn:Hp; simpl; [rewrite Hp|]; now rewrite ?IH.
Qed.

Lemma filter_other_listeners (l : ListenerId) (ls : list ListenerId) :
  ~ In l ls -> filter (fun l' => negb (Nat.eqb l' l)) ls = ls.
Proof.
  induction ls as [|x ls IH]; simpl; intros Hn; [reflexivity|].
  destruct (Nat.eqb_spec x l) as [->|Hne].
  - exfalso. apply Hn. now left.
  - simpl. rewrite IH; [reflexivity|]. intros Hin. apply Hn. now right.
Qed.

(** X5: [destroy()] touches only what belongs to the instance.  It
    emits nothing; every other listener stays registered, in order; every
    node other than the instance's frame keeps its parent; no frame
    property changes; and destroying the returned instance again changes
    nothing. *)
Theorem destroy_touches_only_its_own (this : Controller) (w : World) :
  trace (destroy this w) = [] /\
  listeners (world (destroy this w))
  = filter (fun l => negb (Nat.eqb l (bound_handleMessage this))) (listeners w) /\
  (forall l, l <> bound_handleMessage this ->
             (In l (listeners (world (destroy this w))) <-> In l (listeners w))) /\
  (forall n, iframe this <> Some n ->
             parentNode (world (destroy this w)) n = parentNode w n) /\
  frames (world (destroy this w)) = frames w /\
  next_id (world (destroy this w)) = next_id w /\
  (forall this', completion (destroy this w) = Normal this' ->
                 destroy this' (world (destroy this w))
                 = mkRun [] (world (destroy this w)) (Normal this')).
Proof.
  rewrite destroy_run. cbn [trace world completion listeners parentNode frames next_id].
  repeat match goal with |- _ /\ _ => split end; try reflexivity.
  - intros l Hl. rewrite filter_In. split; [tauto|].
    intros Hin. split; [exact Hin|].
    apply negb_true_iff. now apply Nat.eqb_neq.
  - intros n Hn. destruct (iframe this) as [f|]; [|reflexivity].
    destruct (parentNode w f); [|reflexivity].
    unfold update. destruct (Nat.eqb_spec n f) as [->|_]; [congruence | reflexivity].
  - intros this' [= <-]. rewrite destroy_run.
    cbn [iframe bound_handleMessage listeners parentNode frames next_id].
    now rewrite filter_twice.
Qed.

Lemma destroy_mounted (h : Host) (opts : Config) (anchor : NodeId) (w : World) :
  destroy (mounted_controller opts anchor w) (mounted_world h opts anchor w)
  = mkRun []
          (mkWorld (S (S (next_id w)))
                   (update (parentNode (mounted_world h opts anchor w)) (next_id w) None)
                   (frames (mounted_world h opts anchor w))
                   (filter (fun l' => negb (Nat.eqb l' (S (next_id w))))
                           (listeners w ++ [S (next_id w)])))
          (Normal (mkController None None None None (S (next_id w)))).
Proof.
  rewrite destroy_run. unfold mounted_controller.
  cbn [iframe bound_handleMessage]. rewrite mounted_parent, Nat.eqb_refl.
  reflexivity.
Qed.

(** X6: constructing an instance and destroying it does not restore the
    page.  The listener list is back to what it was (the instance's handle
    being a fresh one), the frame is detached, but the anchor stays empty:
    the children the constructor removed do not come back; nodes under
    other parents are where they were. *)
Theorem construct_then_destroy (h : Host) (opts : Config) (w : World) (anchor : NodeId) :
  truthy (field opts "container") = true ->
  truthy (field opts "page") = true ->
  anchor_of h (field opts "container") = Some anchor ->
  ~ In (S (next_id w)) (listeners w) ->
  exists (this : Controller) (w1 : World) (this' : Controller) (w2 : World),
    completion (constructor h (JObj opts) w) = Normal this /\
    world (constructor h (JObj opts) w) = w1 /\
    completion (destroy this w1) = Normal this' /\
    world (destroy this w1) = w2 /\
    listeners w2 = listeners w /\
    (forall n, parentNode w2 n <> Some anchor) /\
    (forall n p, n <> next_id w -> p <> anchor ->
                 (parentNode w2 n = Some p <-> parentNode w n = Some p)) /\
    iframe this' = None /\ callbacks this' = None.
Proof.
  intros Hc Hp Ha Hfresh.
  exists (mounted_controller opts anchor w), (mounted_world h opts anchor w),
         (mkController None None None None (S (next_id w))),
         (world (destroy (mounted_controller opts anchor w) (mounted_world h opts anchor w))).
  rewrite (constructor_run h opts w Hc Hp Ha).
  rewrite destroy_mounted. cbn [completion world listeners parentNode].
  repeat match goal with |- _ /\ _ => split end; try reflexivity.
  - rewrite filter_app. simpl. rewrite Nat.eqb_refl. simpl. rewrite app_nil_r.
    now apply filter_other_listeners.
  - intros n. unfold update. rewrite (mounted_parent h opts anchor w n).
    destruct (Nat.eqb_spec n (next_id w)) as [->|Hne]; [discriminate|].
    destruct (parentNode w n) as [p|]; [|discriminate].
    destruct (Nat.eqb_spec p anchor); [discriminate | congruence].
  - intros n p Hn Hp'. unfold update. rewrite (mounted_parent h opts anchor w n).
    destruct (Nat.eqb_spec n (next_id w)); [congruence|].
    destruct (parentNode w n) as [q|]; [|tauto].
    destruct (Nat.eqb_spec q anchor) as [->|_]; [|tauto].
    split; [discriminate | congruence].
Qed.

Lemma construct_then_destroy_witness :
  truthy (field demo_upload "container") = true /\
  truthy (field demo_upload "page") = true /\
  anchor_of demo_host (field demo_upload "container") = Some 1 /\
  ~ In (S (next_id demo_world)) (listeners demo_world) /\
  parentNode demo_world 2 = Some 1 /\
  exists (this : Controller) (w1 : World) (this' : Controller) (w2 : World),
    completion (constructor demo_host (JObj demo_upload) demo_world) = Normal this /\
    world (constructor demo_host (JObj demo_upload) demo_world) = w1 /\
    completion (destroy this w1) = Normal this' /\
    world (destroy this w1) = w2 /\
    listeners w2 = listeners demo_world /\
    parentNode w2 2 <> Some 1.
Proof.
  split; [reflexivity|]. split; [reflexivity|]. split; [reflexivity|].
  split; [intros []|]. split; [reflexivity|].
  destruct (@construct_then_destroy demo_host demo_upload demo_world 1
              eq_refl eq_refl eq_refl (fun H : In 11 [] => H))
    as (this & w1 & this' & w2 & H1 & H2 & H3 & H4 & Hls & Hempty & _).
  exists this, w1, this', w2.
  split; [exact H1|]. split; [exact H2|]. split; [exact H3|]. split; [exact H4|].
  split; [exact Hls|]. apply Hempty.
Defined.

(** ** The other arms of the switch *)

Lemma content_size_run (h : Host) (this : Controller) (w : World) (event : MessageEvent)
      (props : list (string * JsValue)) (f : NodeId) :
  accepted h this w event = true ->
  data event = JObj props ->
  field props "messageType" = JStr "contentSize" ->
  iframe this = Some f ->
  _handleMessage h this event w = mkRun [] (reaction_world h f props w) (Normal tt).
Proof.
  intros Hacc Hdata Hmt Hf.
  rewrite (handleMessage_accepted _ _ _ _ Hacc Hdata).
  unfold dispatch, reaction_world. rewrite bind_get, Hmt.
  change (is_str "contentSize" (JStr "contentSize")) with true. cbv iota.
  rewrite bind_get. unfold _resizeIframe, the_iframe. rewrite Hf.
  rewrite andb_true_l.
  destruct (negb (truthy (field props "height")) || isNaN h (field props "height"));
    [reflexivity|].
  rewrite bind_ret. unfold set_style_height.
  destruct (css_height h (ToString h (field props "height") ++ "px"));
    reflexivity.
Qed.

(** X7: an accepted content-size report calls nothing, posts nothing and
    logs nothing.  When the height is truthy and not NaN, the handler
    assigns it with [px] appended to the height of the instance's frame:
    if the style declaration accepts that text, the value it keeps for
    it becomes the frame's height, and that is the only thing that
    changes (tree, listeners, other frames and the other properties of
    the frame stay).  A missing, zero, empty or NaN height, or a text
    the style declaration rejects (a negative number, [true] with [px]
    appended), changes nothing at all.  The reported width is never
    read. *)
Theorem content_size_sets_frame_height (h : Host) (this : Controller) (w : World)
        (event : MessageEvent) (props : list (string * JsValue)) (f : NodeId) :
  accepted h this w event = true ->
  data event = JObj props ->
  field props "messageType" = JStr "contentSize" ->
  iframe this = Some f ->
  trace (_handleMessage h this event w) = [] /\
  completion (_handleMessage h this event w) = Normal tt /\
  parentNode (world (_handleMessage h this event w)) = parentNode w /\
  listeners (world (_handleMessage h this event w)) = listeners w /\
  (forall n, n <> f -> frames (world (_handleMessage h this event w)) n = frames w n) /\
  src (frames (world (_handleMessage h this event w)) f) = src (frames w f) /\
  cssText (frames (world (_handleMessage h this event w)) f) = cssText (frames w f) /\
  display (frames (world (_handleMessage h this event w)) f) = display (frames w f) /\
  (forall kept : string,
      truthy (field props "height") = true -> isNaN h (field props "height") = false ->
      css_height h (ToString h (field props "height") ++ "px")%string = Some kept ->
      height (frames (world (_handleMessage h this event w)) f) = Some kept) /\
  (truthy (field props "height") = false \/ isNaN h (field props "height") = true \/
   css_height h (ToString h (field props "height") ++ "px")%string = None ->
   world (_handleMessage h this event w) = w).
Proof.
  intros Hacc Hdata Hmt Hf.
  rewrite (content_size_run _ _ _ _ Hacc Hdata Hmt Hf).
  cbn [trace completion world]. unfold reaction_world. rewrite Hmt.
  change (is_str "contentSize" (JStr "contentSize")) with true. rewrite andb_true_l.
  destruct (truthy (field props "height")) eqn:Ht;
    destruct (isNaN h (field props "height")) eqn:Hn;
    destruct (css_height h (ToString h (field props "height") ++ "px")) as [kept0|] eqn:Hv;
    cbv beta iota delta [negb orb andb]; cbn [parentNode listeners frames];
    repeat match goal with |- _ /\ _ => split end;
    try reflexivity; try discriminate;
    try (intros [H|[H|H]]; discriminate H);
    try (intros kept _ _ H; discriminate H);
    try (intros n Hne; unfold update;
         destruct (Nat.eqb_spec n f); [congruence | reflexivity]);
    try (unfold update; rewrite Nat.eqb_refl; reflexivity);
    try (intros kept _ _ [= <-]; unfold update; rewrite Nat.eqb_refl; reflexivity).
Qed.

Lemma content_size_sets_frame_height_witness :
  let props := [("source", JStr "biolock"); ("messageType", JStr "contentSize");
                ("height", JNum 450); ("width", JNum 800)] in
  let event := mkEvent (Some 110) (JObj props) in
  accepted demo_host demo_controller demo_mounted event = true /\
  iframe demo_controller = Some 10 /\
  truthy (field props "height") = true /\
  isNaN demo_host (field props "height") = false /\
  css_height demo_host (ToString demo_host (field props "height") ++ "px")%string
  = Some "450px" /\
  height (frames (world (_handleMessage demo_host demo_controller event demo_mounted)) 10)
  = Some "450px".
Proof.
  cbv zeta. repeat (split; [reflexivity|]).
  refine (proj1 (proj2 (proj2 (proj2 (proj2 (proj2 (proj2 (proj2 (proj2
    (@content_size_sets_frame_height demo_host demo_controller demo_mounted
       (mkEvent (Some 110)
                (JObj [("source", JStr "biolock"); ("messageType", JStr "contentSize");
                       ("height", JNum 450); ("width", JNum 800)]))
       _ 10 eq_refl eq_refl eq_refl eq_refl))))))))) "450px" eq_refl eq_refl eq_refl).
Defined.

(** A height the style declaration rejects leaves the frame as it is. *)
Example content_size_invalid_length :
  let report v := mkEvent (Some 110)
                          (JObj [("source", JStr "biolock");
                                 ("messageType", JStr "contentSize"); ("height", v)]) in
  world (_handleMessage demo_host demo_controller (report (JNum (-5))) demo_mounted)
  = demo_mounted /\
  world (_handleMessage demo_host demo_controller (report (JBool true)) demo_mounted)
  = demo_mounted.
Proof. cbv zeta. split; reflexivity. Qed.




Lemma accepted_run_with (h : Host) (this : Controller) (table : CallbackTable) (w : World)
      (event : MessageEvent) (props : list (string * JsValue)) :
  accepted h this w event = true ->
  callbacks this = Some table ->
  data event = JObj props ->
  exists f target,
    iframe this = Some f /\ contentWindow h f w = Some target /\
    _handleMessage h this event w
    = mkRun (reaction_trace h table target props) (reaction_world h f props w) (Normal tt).
Proof.
  intros Hacc Hcb Hdata.
  destruct (@handleMessage_run _ _ _ _ _ Hacc Hcb)
    as (f & target & props' & Hf & _ & Hcw & Hd & Hrun).
  rewrite Hdata in Hd. injection Hd as <-. eauto.
Qed.

(** X9: the four relay arms ([jsonToParent], [documentDelivery],
    [documentFilesAutoDownloaded], [certifiedSenderPhoto]).  On an
    accepted message of such a type, a function registered in the
    matching slot is called once with the message's [json], [delivered],
    [downloaded] or [photo] field as it is ([undefined] when the field is
    missing); an exception it throws is logged; nothing is posted and
    nothing changes.  With nothing registered the message has no effect
    at all. *)
Theorem relay_arms_forward_one_field (h : Host) (this : Controller) (table : CallbackTable)
        (w : World) (event : MessageEvent) (props : list (string * JsValue))
        (slot : Slot) (name prop : string) :
  In (slot, name, prop) relay_arms ->
  accepted h this w event = true ->
  callbacks this = Some table ->
  data event = JObj props ->
  field props "messageType" = JStr name ->
  (forall g, table slot = JFun g ->
     _handleMessage h this event w
     = mkRun (Call slot g (field props prop)
              :: match call h g (field props prop) with
                 | CbReturn => []
                 | CbThrow e => [ConsoleError [LExn e]]
                 end)
             w (Normal tt)) /\
  (truthy (table slot) = false ->
     _handleMessage h this event w = mkRun [] w (Normal tt)).
Proof.
  intros Harm Hacc Hcb Hdata Hmt.
  destruct (accepted_run_with _ _ _ _ Hacc Hcb Hdata) as (f & target & _ & _ & ->).
  unfold reaction_trace, reaction_world. rewrite Hmt.
  simpl in Harm.
  destruct Harm as [[= <- <- <-]|[[= <- <- <-]|[[= <- <- <-]|[[= <- <- <-]|[]]]]];
    cbn [is_str String.eqb Ascii.eqb Bool.eqb andb]; unfold guarded_trace;
    (split; [intros g ->; reflexivity | intros ->; reflexivity]).
Qed.

Lemma relay_arms_forward_one_field_witness :
  let props := [("source", JStr "biolock"); ("messageType", JStr "jsonToParent");
                ("json", JObj [("answer", JNum 42)])] in
  let table := fun s => match s with jsonToParent => JFun 7 | _ => JNull end in
  let this := mkController (Some 1) (Some demo_upload) (Some table) (Some 10) 11 in
  let event := mkEvent (Some 110) (JObj props) in
  In (jsonToParent, "jsonToParent", "json") relay_arms /\
  accepted demo_host this demo_mounted event = true /\
  _handleMessage demo_host this event demo_mounted
  = mkRun [Call jsonToParent 7 (JObj [("answer", JNum 42)])] demo_mounted (Normal tt).
Proof.
  cbv zeta. split; [now left|]. split; [reflexivity|].
  exact (proj1 (@relay_arms_forward_one_field demo_host
                  (mkController (Some 1) (Some demo_upload)
                                (Some (fun s => match s with jsonToParent => JFun 7 | _ => JNull end))
                                (Some 10) 11)
                  _ demo_mounted
                  (mkEvent (Some 110)
                           (JObj [("source", JStr "biolock"); ("messageType", JStr "jsonToParent");
                                  ("json", JObj [("answer", JNum 42)])]))
                  _ jsonToParent "jsonToParent" "json"
                  (or_introl eq_refl) eq_refl eq_refl eq_refl eq_refl) 7 eq_refl).
Defined.

(** X10: the three arms that build a record.  A registered
    [createdDocument] callback receives exactly [{documentKey,
    documentUrl}], a [createdBiolink] callback exactly [{biolinkKey,
    biolinkUrl}] and a [documentAttributes] callback exactly
    [{firstDownloadedAt}], each field copied from the message
    ([undefined] when missing) and every other field of the message left
    out; nothing is posted and nothing changes. *)
Theorem record_arms_normalize_the_payload (h : Host) (this : Controller)
        (table : CallbackTable) (w : World) (event : MessageEvent)
        (props : list (string * JsValue)) :
  accepted h this w event = true ->
  callbacks this = Some table ->
  data event = JObj props ->
  let r := _handleMessage h this event w in
  (field props "messageType" = JStr "createdDocument" ->
   forall g, table createdDocument = JFun g ->
   filter is_call (trace r)
   = [Call createdDocument g (JObj [("documentKey", field props "documentKey");
                                    ("documentUrl", field props "documentUrl")])] /\
   filter is_post (trace r) = [] /\ world r = w) /\
  (field props "messageType" = JStr "createdBiolink" ->
   forall g, table createdBiolink = JFun g ->
   filter is_call (trace r)
   = [Call createdBiolink g (JObj [("biolinkKey", field props "biolinkKey");
                                   ("biolinkUrl", field props "biolinkUrl")])] /\
   filter is_post (trace r) = [] /\ world r = w) /\
  (field props "messageType" = JStr "documentAttributes" ->
   forall g, table documentAttributes = JFun g ->
   filter is_call (trace r)
   = [Call documentAttributes g
           (JObj [("firstDownloadedAt", field props "firstDownloadedAt")])] /\
   filter is_post (trace r) = [] /\ world r = w).
Proof.
  intros Hacc Hcb Hdata. cbv zeta.
  destruct (accepted_run_with _ _ _ _ Hacc Hcb Hdata) as (f & target & _ & _ & ->).
  cbn [trace world]. unfold reaction_trace, reaction_world.
  repeat match goal with |- _ /\ _ => split end;
    intros Hmt g Hg; rewrite Hmt;
    cbn [is_str String.eqb Ascii.eqb Bool.eqb andb];
    unfold guarded_trace; rewrite Hg; cbn [truthy];
    (split; [apply calls_of_invoke | split; [apply posts_of_invoke | reflexivity]]).
Qed.

Lemma record_arms_normalize_the_payload_witness :
  let props := [("source", JStr "biolock"); ("messageType", JStr "createdDocument");
                ("documentKey", JStr "k1"); ("secret", JStr "s")] in
  let table := fun s => match s with createdDocument => JFun 7 | _ => JNull end in
  let this := mkController (Some 1) (Some demo_upload) (Some table) (Some 10) 11 in
  let event := mkEvent (Some 110) (JObj props) in
  accepted demo_host this demo_mounted event = true /\
  filter is_call (trace (_handleMessage demo_host this event demo_mounted))
  = [Call createdDocument 7 (JObj [("documentKey", JStr "k1");
                                   ("documentUrl", JUndefined)])].
Proof.
  cbv zeta. split; [reflexivity|].
  exact (proj1 (proj1 (@record_arms_normalize_the_payload demo_host
                  (mkController (Some 1) (Some demo_upload)
                                (Some (fun s => match s with createdDocument => JFun 7 | _ => JNull end))
                                (Some 10) 11)
                  _ demo_mounted
                  (mkEvent (Some 110)
                           (JObj [("source", JStr "biolock");
                                  ("messageType", JStr "createdDocument");
                                  ("documentKey", JStr "k1"); ("secret", JStr "s")]))
                  _ eq_refl eq_refl eq_refl) eq_refl 7 eq_refl)).
Defined.

(** ** What the handler never does *)

Lemma invoke_trace_bounds (h : Host) (table : CallbackTable) (slot : Slot) (arg : JsValue) :
  length (filter is_call (invoke_trace h slot (table slot) arg)) <= 1 /\
  filter is_post (invoke_trace h slot (table slot) arg) = [] /\
  (forall s g a, In (Call s g a) (invoke_trace h slot (table slot) arg) ->
                 table s = JFun g).
Proof.
  unfold invoke_trace.
  destruct (table slot) as [| |b|n| |str|props|g0|e] eqn:Hslot;
    try (split; [simpl; lia | split; [reflexivity|]];
         intros s g a [H|[]]; discriminate H).
  split; [destruct (call h g0 arg); simpl; lia|].
  split; [destruct (call h g0 arg); reflexivity|].
  intros s g a [H|Hin].
  - injection H as <- <- <-. exact Hslot.
  - destruct (call h g0 arg); simpl in Hin; [contradiction|].
    destruct Hin as [H|[]]; discriminate H.
Qed.

Lemma guarded_trace_bounds (h : Host) (table : CallbackTable) (slot : Slot) (arg : JsValue) :
  length (filter is_call (guarded_trace h slot (table slot) arg)) <= 1 /\
  filter is_post (guarded_trace h slot (table slot) arg) = [] /\
  (forall s g a, In (Call s g a) (guarded_trace h slot (table slot) arg) ->
                 table s = JFun g).
Proof.
  unfold guarded_trace. destruct (truthy (table slot)).
  - apply invoke_trace_bounds.
  - split; [simpl; lia | split; [reflexivity | intros s g a []]].
Qed.

Lemma reaction_trace_bounds (h : Host) (table : CallbackTable) (target : WindowId)
      (props : list (string * JsValue)) :
  length (filter is_call (reaction_trace h table target props)) <= 1 /\
  (forall e, In e (filter is_post (reaction_trace h table target props)) ->
             e = PostMessage target originProof "*") /\
  length (filter is_post (reaction_trace h table target props)) <= 1 /\
  (forall s g a, In (Call s g a) (reaction_trace h table target props) ->
                 table s = JFun g).
Proof.
  assert (Hlift : forall t : list Event,
             (length (filter is_call t) <= 1 /\ filter is_post t = [] /\
              (forall s g a, In (Call s g a) t -> table s = JFun g)) ->
             length (filter is_call t) <= 1 /\
             (forall e, In e (filter is_post t) -> e = PostMessage target originProof "*") /\
             length (filter is_post t) <= 1 /\
             (forall s g a, In (Call s g a) t -> table s = JFun g)).
  { intros t (Hc & Hp & Hfrom). rewrite Hp. simpl.
    split; [exact Hc|]. split; [intros e []|]. split; [lia | exact Hfrom]. }
  unfold reaction_trace.
  destruct (is_str "contentSize" (field props "messageType")).
  { apply Hlift. split; [simpl; lia | split; [reflexivity | intros s g a []]]. }
  destruct (is_str "pageLoaded" (field props "messageType")).
  { destruct (guarded_trace_bounds h table pageLoaded (field props "page"))
      as (Hc & Hp & Hfrom).
    cbn [filter is_call is_post]. rewrite Hp.
    split; [exact Hc|]. split; [intros e [<-|[]]; reflexivity|].
    split; [simpl; lia|].
    intros s g a [H|Hin]; [discriminate H | exact (Hfrom s g a Hin)]. }
  repeat match goal with
         | |- context [if is_str ?s ?v then _ else _] =>
             destruct (is_str s v); [apply Hlift; apply guarded_trace_bounds|]
         end.
  destruct (is_str "error" (field props "messageType")).
  - apply Hlift. unfold error_trace. cbv zeta.
    destruct (is_str "documentNotFound" (field props "errorCode")).
    { destruct (truthy (table documentNotFound));
        [apply invoke_trace_bounds | apply guarded_trace_bounds]. }
    destruct (is_str "biolinkNotCreated" (field props "errorCode")).
    { destruct (truthy (table biolinkNotCreated));
        [apply invoke_trace_bounds | apply guarded_trace_bounds]. }
    apply guarded_trace_bounds.
  - apply Hlift. split; [simpl; lia | split; [reflexivity|]].
    intros s g a [H|[]]. discriminate H.
Qed.

(** X11: one accepted message never fans out.  Whatever its type, the
    handler calls at most one callback, the function it calls is the one
    the callback table holds in the slot it is called under, and it posts
    at most one message, which can only be the origin-proof message to
    the frame's own window. *)
Theorem one_message_one_callback (h : Host) (this : Controller) (table : CallbackTable)
        (w : World) (event : MessageEvent) :
  accepted h this w event = true ->
  callbacks this = Some table ->
  length (filter is_call (trace (_handleMessage h this event w))) <= 1 /\
  length (filter is_post (trace (_handleMessage h this event w))) <= 1 /\
  (forall s g a, In (Call s g a) (trace (_handleMessage h this event w)) ->
                 table s = JFun g) /\
  (forall target message origin,
      In (PostMessage target message origin) (trace (_handleMessage h this event w)) ->
      source event = Some target /\
      message = JObj [("source", JStr "parent"); ("messageType", JStr "originProof")] /\
      origin = "*").
Proof.
  intros Hacc Hcb.
  destruct (@handleMessage_run _ _ _ _ _ Hacc Hcb)
    as (f & target & props & Hf & Hsrc & Hcw & Hd & Hrun).
  rewrite Hrun. cbn [trace].
  destruct (reaction_trace_bounds h table target props) as (Hc & Honly & Hp & Hfrom).
  split; [exact Hc|]. split; [exact Hp|]. split; [exact Hfrom|].
  intros target' message origin Hin.
  assert (Hpost : In (PostMessage target' message origin)
                     (filter is_post (reaction_trace h table target props))).
  { apply filter_In. split; [exact Hin | reflexivity]. }
  apply Honly in Hpost. injection Hpost as -> -> ->. auto.
Qed.

Lemma one_message_one_callback_witness :
  let event := mkEvent (Some 110) demo_loaded in
  accepted demo_host demo_controller demo_mounted event = true /\
  callbacks demo_controller = Some (make_callbacks demo_upload) /\
  length (filter is_call (trace (_handleMessage demo_host demo_controller event demo_mounted)))
  <= 1.
Proof.
  cbv zeta. split; [reflexivity|]. split; [reflexivity|].
  exact (proj1 (@one_message_one_callback demo_host demo_controller
                  (make_callbacks demo_upload) demo_mounted
                  (mkEvent (Some 110) demo_loaded) eq_refl eq_refl)).
Defined.

(** X12: handling a message never touches the page structure.  For a
    live instance and any event, accepted or not, the tree, the listener
    list and every frame's URL and visibility are the same afterwards, so
    the same events are accepted before and after, and the instance's
    listener is registered after exactly when it was before. *)
Theorem handler_keeps_tree_and_listeners (h : Host) (this : Controller)
        (table : CallbackTable) (w : World) (event : MessageEvent) :
  callbacks this = Some table ->
  let w' := world (_handleMessage h this event w) in
  parentNode w' = parentNode w /\
  listeners w' = listeners w /\
  next_id w' = next_id w /\
  (forall n, src (frames w' n) = src (frames w n) /\
             display (frames w' n) = display (frames w n)) /\
  (forall later, accepted h this w' later = accepted h this w later).
Proof.
  intros Hcb. cbv zeta.
  assert (Hsame : parentNode (world (_handleMessage h this event w)) = parentNode w /\
                  listeners (world (_handleMessage h this event w)) = listeners w /\
                  next_id (world (_handleMessage h this event w)) = next_id w /\
                  (forall n, src (frames (world (_handleMessage h this event w)) n)
                             = src (frames w n) /\
                             display (frames (world (_handleMessage h this event w)) n)
                             = display (frames w n))).
  { destruct (accepted h this w event) eqn:Hacc.
    - destruct (@handleMessage_run _ _ _ _ _ Hacc Hcb)
        as (f & target & props & _ & _ & _ & _ & ->).
      cbn [world]. unfold reaction_world.
      destruct (is_str "contentSize" (field props "messageType")
                && negb (negb (truthy (field props "height"))
                         || isNaN h (field props "height")));
        [|repeat split; reflexivity].
      destruct (css_height h (ToString h (field props "height") ++ "px"));
        [|repeat split; reflexivity].
      cbn [parentNode listeners next_id frames].
      repeat match goal with |- _ /\ _ => split end; try reflexivity.
      intros n. unfold update. destruct (Nat.eqb_spec n f) as [->|_]; split; reflexivity.
    - destruct (rejected_no_effects h this w event Hacc) as [_ ->].
      repeat split; reflexivity. }
  destruct Hsame as (Hp & Hl & Hn & Hf).
  repeat match goal with |- _ /\ _ => split end; try assumption.
  intros later. unfold accepted, from_own_frame, contentWindow. now rewrite Hp.
Qed.

Lemma handler_keeps_tree_and_listeners_witness :
  let event := mkEvent (Some 110)
                       (JObj [("source", JStr "biolock"); ("messageType", JStr "contentSize");
                              ("height", JNum 450)]) in
  callbacks demo_controller = Some (make_callbacks demo_upload) /\
  listeners (world (_handleMessage demo_host demo_controller event demo_mounted))
  = listeners demo_mounted.
Proof.
  cbv zeta. split; [reflexivity|].
  exact (proj1 (proj2 (@handler_keeps_tree_and_listeners demo_host demo_controller
                         (make_callbacks demo_upload) demo_mounted
                         (mkEvent (Some 110)
                                  (JObj [("source", JStr "biolock");
                                         ("messageType", JStr "contentSize");
                                         ("height", JNum 450)]))
                         eq_refl))).
Defined.

(** X13: a message that fails either guard is inert.  When the event's
    source is missing or is not the window of the instance's frame, or
    the payload's [source] is not the string [biolock], the handler emits
    nothing (no callback, no post, no console line) and leaves the world
    as it is; it returns normally whenever the instance still has its
    frame and the payload is neither [null] nor [undefined]. *)
Theorem rejected_message_is_inert (h : Host) (this : Controller) (w : World)
        (event : MessageEvent) :
  accepted h this w event = false ->
  trace (_handleMessage h this event w) = [] /\
  world (_handleMessage h this event w) = w /\
  (iframe this <> None -> data event <> JNull -> data event <> JUndefined ->
   completion (_handleMessage h this event w) = Normal tt).
Proof.
  intros Hrej. destruct (rejected_no_effects h this w event Hrej) as [Ht Hw].
  split; [exact Ht|]. split; [exact Hw|].
  intros Hlive Hnull Hundef. now apply rejected_returns.
Qed.

Lemma rejected_message_is_inert_witness :
  let event := mkEvent (Some 999) demo_loaded in
  accepted demo_host demo_controller demo_mounted event = false /\
  trace (_handleMessage demo_host demo_controller event demo_mounted) = [] /\
  world (_handleMessage demo_host demo_controller event demo_mounted) = demo_mounted /\
  (iframe demo_controller <> None -> data event <> JNull -> data event <> JUndefined ->
   completion (_handleMessage demo_host demo_controller event demo_mounted) = Normal tt).
Proof.
  cbv zeta. split; [reflexivity|].
  exact (@rejected_message_is_inert demo_host demo_controller demo_mounted
           (mkEvent (Some 999) demo_loaded) eq_refl).
Defined.

(** ** The URL builder, continued *)

Section WithoutCallbacks.

Variable h : Host.

Local Arguments String.eqb : simpl never.
Local Arguments prefix : simpl never.

Lemma lookup_without_callbacks (k : string) (opts : Config) :
  prefix "on" k = false ->
  lookup k (filter not_callback_field opts) = lookup k opts.
Proof.
  intros Hk. induction opts as [|[k' v] opts IH]; [reflexivity|].
  simpl. unfold not_callback_field at 1. simpl fst.
  destruct (prefix "on" k') eqn:Hk'; simpl.
  - destruct (String.eqb_spec k' k) as [->|_]; [congruence | exact IH].
  - now rewrite IH.
Qed.

Lemma fold_without_callbacks (o1 o2 : Config) (l : Config) :
  (forall k, prefix "on" k = false -> field o1 k = field o2 k) ->
  forall acc,
    fold_left (param_step h o1) (filter not_callback_field l) acc
    = fold_left (param_step h o2) l acc.
Proof.
  intros Hsame. induction l as [|[k v] l IH]; intros acc; [reflexivity|].
  cbn [filter fold_left]. unfold not_callback_field at 1. cbn [fst].
  destruct (prefix "on" k) eqn:Hk; cbn [negb fold_left].
  - assert (Hskip : param_step h o2 acc (k, v) = acc).
    { unfold param_step. cbn [fst]. now rewrite Hk. }
    rewrite Hskip. apply IH.
  - assert (Hstep : param_step h o1 acc (k, v) = param_step h o2 acc (k, v)).
    { unfold param_step. cbn [fst]. now rewrite Hk, (Hsame k Hk). }
    rewrite Hstep. apply IH.
Qed.

End WithoutCallbacks.

(** X14: callbacks never reach the URL.  The generated URL, and the
    console output of the builder, are those of the configuration with
    every field whose name starts with [on] removed: neither the presence
    nor the value of such a field changes anything. *)
Theorem url_ignores_callback_fields (h : Host) (opts : Config) (w : World) :
  _buildIframeUrl h (filter not_callback_field opts) w = _buildIframeUrl h opts w.
Proof.
  assert (Hfield : forall k, prefix "on" k = false ->
                             field (filter not_callback_field opts) k = field opts k).
  { intros k Hk. unfold field. now rewrite lookup_without_callbacks. }
  rewrite !buildIframeUrl_run. unfold key_suffix.
  rewrite (Hfield "page" eq_refl), (Hfield "document_key" eq_refl).
  rewrite (query_params_fold h (filter not_callback_field opts)), (query_params_fold h opts).
  now rewrite (fold_without_callbacks h _ opts opts Hfield).
Qed.

(** ** Parameter names *)

Lemma params_set_names (name value : string) (ps : Params) (n : string) :
  In n (map fst (params_set name value ps)) -> n = name \/ In n (map fst ps).
Proof.
  induction ps as [|[k v] ps IH]; simpl.
  - intros [<-|[]]. now left.
  - destruct (String.eqb_spec k name) as [->|Hne]; simpl.
    + intros [<-|Hin]; [now left|]. right. right.
      apply in_map_iff in Hin. destruct Hin as (kv & <- & Hin).
      apply filter_In in Hin. apply in_map. tauto.
    + intros [<-|Hin]; [right; now left|].
      destruct (IH Hin); [now left | right; now right].
Qed.

Lemma nodup_names_filter (p : string * string -> bool) (ps : Params) :
  NoDup (map fst ps) -> NoDup (map fst (filter p ps)).
Proof.
  induction ps as [|[k v] ps IH]; simpl; intros Hnd; [constructor|].
  inversion Hnd as [|? ? Hk Hnd']; subst.
  destruct (p (k, v)); simpl; [|now apply IH].
  constructor; [|now apply IH].
  intros Hin. apply Hk. apply in_map_iff in Hin. destruct Hin as (kv & <- & Hin).
  apply filter_In in Hin. apply in_map. tauto.
Qed.

Lemma params_set_nodup (name value : string) (ps : Params) :
  NoDup (map fst ps) -> NoDup (map fst (params_set name value ps)).
Proof.
  induction ps as [|[k v] ps IH]; simpl; intros Hnd.
  - constructor; [intros []|constructor].
  - inversion Hnd as [|? ? Hk Hnd']; subst.
    destruct (String.eqb_spec k name) as [->|Hne]; simpl.
    + constructor; [|now apply nodup_names_filter].
      intros Hin. apply in_map_iff in Hin. destruct Hin as ([k' v'] & Heq & Hin).
      simpl in Heq. subst k'. apply filter_In in Hin. destruct Hin as [_ Hneq].
      simpl in Hneq. rewrite String.eqb_refl in Hneq. discriminate.
    + constructor; [|now apply IH].
      intros Hin. apply params_set_names in Hin. destruct Hin; [congruence | contradiction].
Qed.

(** X15: however the configuration looks (even with nothing in it), the
    parameter list of the URL starts with [display_mode], no name occurs
    twice, no name starts with [on], and every name other than
    [display_mode] is the name of a configuration field. *)
Theorem query_parameter_names (h : Host) (opts : Config) :
  (exists value rest, query_params h opts = ("display_mode", value) :: rest) /\
  NoDup (map fst (query_params h opts)) /\
  (forall name, In name (map fst (query_params h opts)) ->
                prefix "on" name = false /\
                (name = "display_mode" \/ In name (map fst opts))).
Proof.
  split; [apply query_params_head|].
  rewrite query_params_fold.
  assert (Hinv : forall (l : Config) (acc : Params),
             (forall kv, In kv l -> In (fst kv) (map fst opts)) ->
             (NoDup (map fst acc) /\
              forall name, In name (map fst acc) ->
                           prefix "on" name = false /\
                           (name = "display_mode" \/ In name (map fst opts))) ->
             NoDup (map fst (fold_left (param_step h opts) l acc)) /\
             forall name, In name (map fst (fold_left (param_step h opts) l acc)) ->
                          prefix "on" name = false /\
                          (name = "display_mode" \/ In name (map fst opts))).
  { induction l as [|kv l IH]; intros acc Hsub Hacc; [exact Hacc|].
    simpl. apply IH; [intros kv' Hin; apply Hsub; now right|].
    destruct Hacc as [Hnd Hnames].
    unfold param_step. destruct (prefix "on" (fst kv)) eqn:Hon; [now split|].
    split; [now apply params_set_nodup|].
    intros name Hin. apply params_set_names in Hin. destruct Hin as [->|Hin].
    - split; [exact Hon|]. right. apply Hsub. now left.
    - now apply Hnames. }
  apply Hinv.
  - intros kv Hin. now apply in_map.
  - split.
    + simpl. constructor; [intros []|constructor].
    + intros name [<-|[]]. split; [reflexivity | now left].
Qed.

(** ** Form encoding *)

Lemma list_ascii_app (a b : string) :
  list_ascii_of_string (a ++ b) = list_ascii_of_string a ++ list_ascii_of_string b.
Proof.
  induction a as [|c a IH]; simpl; [reflexivity | now rewrite IH].
Qed.

Lemma hex_digit_safe (n : nat) : form_safe (hex_digit n) = true.
Proof.
  do 16 (destruct n as [|n]; [reflexivity|]). reflexivity.
Qed.

(** Every character of an encoded name or value is an ASCII letter or
    digit, one of [* - . _], a [+] or a [%]. *)
Lemma form_encode_alphabet (s : string) :
  (forall c, In c (list_ascii_of_string (form_encode s)) ->
             form_safe c = true \/ c = "+"%char \/ c = "%"%char) /\
  ~ In "&"%char (list_ascii_of_string (form_encode s)) /\
  ~ In "="%char (list_ascii_of_string (form_encode s)) /\
  ~ In "#"%char (list_ascii_of_string (form_encode s)) /\
  ~ In "?"%char (list_ascii_of_string (form_encode s)) /\
  ~ In " "%char (list_ascii_of_string (form_encode s)).
Proof.
  assert (Hall : forall c, In c (list_ascii_of_string (form_encode s)) ->
                           form_safe c = true \/ c = "+"%char \/ c = "%"%char).
  { induction s as [|x s IH]; simpl; [intros c []|].
    intros c. rewrite list_ascii_app, in_app_iff. intros [Hin|Hin]; [|now apply IH].
    unfold form_encode_byte in Hin.
    destruct (Ascii.eqb x " ").
    - destruct Hin as [<-|[]]. right. now left.
    - destruct (form_safe x) eqn:Hsafe.
      + destruct Hin as [<-|[]]. now left.
      + destruct Hin as [<-|[<-|[<-|[]]]].
        * right. now right.
        * left. apply hex_digit_safe.
        * left. apply hex_digit_safe. }
  split; [exact Hall|].
  repeat match goal with |- _ /\ _ => split end;
    intros Hin; apply Hall in Hin;
    destruct Hin as [H|[H|H]]; discriminate H.
Qed.

(** A text made only of ASCII letters, digits and [* - . _] is its own
    form encoding. *)
Lemma form_encode_keeps_safe_text (s : string) :
  (forall c, In c (list_ascii_of_string s) -> form_safe c = true) ->
  form_encode s = s.
Proof.
  induction s as [|x s IH]; simpl; intros Hsafe; [reflexivity|].
  rewrite IH by (intros c Hin; apply Hsafe; now right).
  assert (Hx : form_safe x = true) by (apply Hsafe; now left).
  unfold form_encode_byte.
  destruct (Ascii.eqb_spec x " ") as [->|_]; [discriminate Hx|].
  now rewrite Hx.
Qed.

Lemma params_toString_chars (ps : Params) (c : ascii) :
  In c (list_ascii_of_string (params_toString ps)) ->
  form_safe c = true \/ c = "+"%char \/ c = "%"%char \/ c = "="%char \/ c = "&"%char.
Proof.
  assert (Henc : forall s, In c (list_ascii_of_string (form_encode s)) ->
                           form_safe c = true \/ c = "+"%char \/ c = "%"%char
                           \/ c = "="%char \/ c = "&"%char).
  { intros s Hin. destruct (proj1 (form_encode_alphabet s) c Hin) as [H|[H|H]]; tauto. }
  induction ps as [|[k v] ps IH]; [intros []|].
  rewrite params_toString_cons. cbn [fst snd].
  rewrite !list_ascii_app, !in_app_iff.
  intros [Hin|[Hin|[Hin|Hin]]].
  - exact (Henc k Hin).
  - destruct Hin as [<-|[]]. tauto.
  - exact (Henc v Hin).
  - destruct ps as [|p ps]; [destruct Hin|].
    rewrite list_ascii_app, in_app_iff in Hin. destruct Hin as [[<-|[]]|Hin]; [tauto|].
    now apply IH.
Qed.

(** X16: configuration values cannot break out of the query string.
    Whatever the field names and values are, every character of the
    query string the builder serializes is an ASCII letter or digit or
    one of [* - . _ + % = &]; so it contains no [#], no [?] and no space.
    (The document key appended after it is not encoded and carries no
    such guarantee.) *)
Theorem query_string_alphabet (h : Host) (opts : Config) :
  (forall c, In c (list_ascii_of_string (params_toString (query_params h opts))) ->
             form_safe c = true \/ c = "+"%char \/ c = "%"%char
             \/ c = "="%char \/ c = "&"%char) /\
  ~ In "#"%char (list_ascii_of_string (params_toString (query_params h opts))) /\
  ~ In "?"%char (list_ascii_of_string (params_toString (query_params h opts))) /\
  ~ In " "%char (list_ascii_of_string (params_toString (query_params h opts))).
Proof.
  split; [intros c; apply params_toString_chars|].
  repeat match goal with |- _ /\ _ => split end;
    intros Hin; apply params_toString_chars in Hin;
    destruct Hin as [H|[H|[H|[H|H]]]]; discriminate H.
Qed.

(** ** The parse branch *)

(** X18: the [JSON.parse] block of the handler is dead code.  For every
    instance, world and event, the handler does exactly the same with any
    other parser in place of [JSON.parse]: the provenance test before the
    block lets only objects through, so the parser is never consulted. *)
Theorem handler_never_parses (h : Host) (parse : string -> JsValue + string)
        (this : Controller) (event : MessageEvent) (w : World) :
  _handleMessage (with_parse h parse) this event w = _handleMessage h this event w.
Proof.
  destruct event as [from payload]. unfold _handleMessage. cbn [source data].
  destruct from as [from|]; [|reflexivity].
  unfold the_iframe. destruct (iframe this) as [f|]; [|reflexivity].
  rewrite !bind_ret, !bind_read.
  change (contentWindow (with_parse h parse) f w) with (contentWindow h f w).
  destruct (negb (option_nat_eqb (Some from) (contentWindow h f w))); [reflexivity|].
  destruct payload as [| |b|n| |s|props|g|e]; reflexivity.
Qed.
